(** * PASDV: loan-plan appraisal (numeric parsers, field extraction,
      amortization schedule, credit metrics)

    Shallow embedding of [src/python.py].

    Modelling conventions, used throughout:
    - a Python [float] is the rational number it denotes ([Q], compared
      with [==]); binary64 rounding, overflow and infinities are not
      modelled.  [np.nan] is the separate constructor [NaN] of [pyfloat];
    - a Python [int] is a [Z], a date is its day ordinal, without the
      year range of [datetime.date];
    - a Python [str] is the list of its Unicode code points;
    - the dictionary built from [FIELD_DEFAULTS] has a fixed key set and is
      a record with one field per key;
    - a call that can raise returns a [result];
    - what the program takes from outside the repository is a section
      variable: the regular-expression engine [re.search], the document
      reader [Document] of python-docx, the Unicode table of decimal
      digits, today's date, the text box [st.text_input] and whether
      Plotly was imported. *)

From Stdlib Require Import QArith Qround Qabs Qpower Qminmax ZArith NArith.
From Stdlib Require Import Lia Lqa List String Ascii Bool Sorted.
Import ListNotations.

Local Open Scope Q_scope.

(** ** Exceptions and fallible calls *)

(** The exceptions that occur: the two raised by the arithmetic and the
    conversions of the program itself, and those of the document reader
    ([BadZipFile] for input that is no archive, [ReaderError] for any
    other failure of the reader). *)
Inductive exn : Type :=
| ZeroDivisionError
| ValueError
| BadZipFile
| ReaderError (code : N).

Inductive result (A : Type) : Type :=
| Ok (a : A)
| Raise (e : exn).

Arguments Ok {A} a.
Arguments Raise {A} e.

Definition bind {A B : Type} (m : result A) (k : A -> result B) : result B :=
  match m with
  | Ok a => k a
  | Raise e => Raise e
  end.

Notation "x <- m ;; k" := (bind m (fun x => k))
  (at level 61, m at next level, right associativity).

(** ** Numbers *)

(** [x < y]. *)
Definition Qltb (x y : Q) : bool := negb (Qle_bool y x).

(** [a / b] on floats: raises when [b] is zero. *)
Definition py_div (a b : Q) : result Q :=
  if Qeq_bool b 0 then Raise ZeroDivisionError else Ok (a / b).

(** The builtins [max(a, b)] and [min(a, b)]: the first argument is kept
    unless the second is strictly better. *)
Definition py_max (a b : Q) : Q := if Qltb a b then b else a.
Definition py_min (a b : Q) : Q := if Qltb b a then b else a.

(** Rounding to the nearest integer, ties to the even one. *)
Definition round_half_even (x : Q) : Z :=
  let f := Qfloor x in
  match Qcompare (x - inject_Z f) (1 # 2) with
  | Lt => f
  | Gt => (f + 1)%Z
  | Eq => if Z.even f then f else (f + 1)%Z
  end.

(** [round(x, ndigits)] for [ndigits >= 0]. *)
Definition py_round (x : Q) (ndigits : N) : Q :=
  let scale := inject_Z (10 ^ Z.of_N ndigits) in
  inject_Z (round_half_even (x * scale)) / scale.

(** A float that may be [np.nan]. *)
Inductive pyfloat : Type :=
| Num (q : Q)
| NaN.

Definition isnan (x : pyfloat) : bool :=
  match x with
  | NaN => true
  | Num _ => false
  end.

(** ** Amortization engine *)

(** [annuity_payment], lines 242-249. *)
Definition annuity_payment (principal annual_rate_pct : Q) (months : Z)
  : result Q :=
  let r := annual_rate_pct / 100 / 12 in
  if (months <=? 0)%Z then Ok 0
  else if Qeq_bool r 0 then py_div principal (inject_Z months)
  else
    let num := principal * r * (1 + r) ^ months in
    py_div num ((1 + r) ^ months - 1).



Section Amortization.

(** [dt.date.today()], as a day ordinal. *)
Variable today : Z.


End Amortization.

(** ** Strings *)

(** A Unicode code point and a Python [str]. *)
Definition char : Type := N.
Definition pystr : Type := list char.

(** Decoding of a UTF-8 literal into code points, for the string constants
    of the source. *)
Fixpoint utf8_decode_aux (acc : N) (need : nat) (bs : list N) : pystr :=
  match bs with
  | [] => []
  | b :: bs' =>
      match need with
      | S k =>
          let acc' := (acc * 64 + b mod 64)%N in
          match k with
          | O => acc' :: utf8_decode_aux 0%N O bs'
          | S _ => utf8_decode_aux acc' k bs'
          end
      | O =>
          if (b <? 128)%N then b :: utf8_decode_aux 0%N O bs'
          else if (b <? 224)%N then utf8_decode_aux (b mod 32)%N 1 bs'
          else if (b <? 240)%N then utf8_decode_aux (b mod 16)%N 2 bs'
          else utf8_decode_aux (b mod 8)%N 3 bs'
      end
  end.

Definition u (s : string) : pystr :=
  utf8_decode_aux 0%N O (map N_of_ascii (list_ascii_of_string s)).

Definition chr_newline : char := 10%N.
Definition chr_minus : char := 45%N.
Definition chr_dot : char := 46%N.

Fixpoint is_prefix (p s : pystr) : bool :=
  match p, s with
  | [], _ => true
  | _ :: _, [] => false
  | a :: p', b :: s' => (a =? b)%N && is_prefix p' s'
  end.

(** [a == b] on strings. *)
Fixpoint pystr_eqb (a b : pystr) : bool :=
  match a, b with
  | [], [] => true
  | x :: a', y :: b' => (x =? y)%N && pystr_eqb a' b'
  | _, _ => false
  end.

(** [sub in s]. *)
Fixpoint contains (sub s : pystr) : bool :=
  is_prefix sub s ||
  match s with
  | [] => false
  | _ :: s' => contains sub s'
  end.

(** [s.replace(old, new)] for a non-empty [old]: occurrences are replaced
    from the left and do not overlap.  [skip] counts the characters of the
    occurrence just replaced that are still to be dropped. *)
Fixpoint replace_aux (old new : pystr) (skip : nat) (s : pystr) : pystr :=
  match s with
  | [] => []
  | c :: s' =>
      match skip with
      | S k => replace_aux old new k s'
      | O =>
          if is_prefix old s
          then new ++ replace_aux old new (pred (List.length old)) s'
          else c :: replace_aux old new O s'
      end
  end.

Definition replace (old new s : pystr) : pystr := replace_aux old new O s.

(** [str.isspace] on one character (the whitespace table of CPython). *)
Definition is_space (c : char) : bool :=
  ((9 <=? c) && (c <=? 13) || (28 <=? c) && (c <=? 32)
   || (c =? 133) || (c =? 160) || (c =? 5760)
   || (8192 <=? c) && (c <=? 8202)
   || (c =? 8232) || (c =? 8233) || (c =? 8239) || (c =? 8287)
   || (c =? 12288))%N.

Fixpoint lstrip (s : pystr) : pystr :=
  match s with
  | [] => []
  | c :: s' => if is_space c then lstrip s' else s
  end.

(** [s.strip()]. *)
Definition strip (s : pystr) : pystr := rev (lstrip (rev (lstrip s))).

(** [s.split(sep)] for a one-character [sep]. *)
Fixpoint split_char (sep : char) (cur : pystr) (s : pystr) : list pystr :=
  match s with
  | [] => [rev cur]
  | c :: s' =>
      if (c =? sep)%N then rev cur :: split_char sep [] s'
      else split_char sep (c :: cur) s'
  end.

Definition split (sep : char) (s : pystr) : list pystr := split_char sep [] s.

(** [sep.join(parts)]. *)
Fixpoint join (sep : pystr) (parts : list pystr) : pystr :=
  match parts with
  | [] => []
  | [p] => p
  | p :: rest => p ++ sep ++ join sep rest
  end.

Definition nonempty (s : pystr) : bool :=
  match s with
  | [] => false
  | _ :: _ => true
  end.

(** ** Locale numeric parser *)

Section Parsers.

(** The value of a non-ASCII decimal digit (Unicode category Nd), [None]
    for any other character: the table behind [\d], [int] and [float]. *)
Variable unicode_decimal : char -> option N.

Definition decimal_digit (c : char) : option N :=
  if ((48 <=? c) && (c <=? 57))%N then Some (c - 48)%N
  else if (c <? 128)%N then None
  else unicode_decimal c.

Definition is_digit (c : char) : bool :=
  match decimal_digit c with
  | Some _ => true
  | None => false
  end.

Fixpoint take_digits (s : pystr) : pystr :=
  match s with
  | [] => []
  | c :: s' => if is_digit c then c :: take_digits s' else []
  end.

Fixpoint drop_digits (s : pystr) : pystr :=
  match s with
  | [] => []
  | c :: s' => if is_digit c then drop_digits s' else s
  end.

(** The number written by a string of decimal digits. *)
Fixpoint digits_value (acc : Z) (s : pystr) : Z :=
  match s with
  | [] => acc
  | c :: s' =>
      match decimal_digit c with
      | Some d => digits_value (acc * 10 + Z.of_N d) s'
      | None => acc
      end
  end.

(** [float(s)] on a string made of digits, ['.'] and ['-'], the only
    characters that reach it here: an optional leading minus, then
    digits with at most one point and at least one digit.  Anything
    else raises [ValueError]. *)
Definition py_float (s : pystr) : result Q :=
  let (negative, body) :=
    match s with
    | c :: s' => if (c =? chr_minus)%N then (true, s') else (false, s)
    | [] => (false, s)
    end in
  let sign (v : Q) := if negative then - v else v in
  let int_part := take_digits body in
  match drop_digits body with
  | [] =>
      if nonempty int_part
      then Ok (sign (inject_Z (digits_value 0 int_part)))
      else Raise ValueError
  | c :: frac =>
      let frac_part := take_digits frac in
      if (c =? chr_dot)%N
         && negb (nonempty (drop_digits frac))
         && (nonempty int_part || nonempty frac_part)
      then Ok (sign (inject_Z (digits_value 0 (int_part ++ frac_part))
                     / inject_Z (10 ^ Z.of_nat (List.length frac_part))))
      else Raise ValueError
  end.

(** [int(s)] on the capture of [(\d+)]: a non-empty string of decimal
    digits.  Anything else raises [ValueError].  (The interpreter's
    optional cap on the number of digits is not modelled.) *)
Definition py_int (s : pystr) : result Z :=
  if nonempty s && forallb is_digit s
  then Ok (digits_value 0 s)
  else Raise ValueError.

(** [re.sub(r"[^\d\.\-]", "", s)]. *)
Definition re_sub_non_numeric (s : pystr) : pystr :=
  filter (fun c => is_digit c || (c =? chr_dot)%N || (c =? chr_minus)%N) s.

(** Lines 66-75 of [vnd_to_float]: separators and currency marks are
    rewritten or removed until only digits, ['.'] and ['-'] are left. *)
Definition vnd_normalize (s : pystr) : pystr :=
  let s :=
    if contains (u ",") s && contains (u ".") s
    then replace (u ",") (u ".") (replace (u ".") (u "") s)
    else if contains (u ",") s && negb (contains (u ".") s)
    then replace (u ",") (u ".") (replace (u ".") (u "") s)
    else replace (u ".") (u "") s in
  let s := replace (u "đ") (u "") s in
  let s := replace (u "VND") (u "") s in
  let s := replace (u "vnđ") (u "") s in
  let s := replace (u "₫") (u "") s in
  let s := replace (u " ") (u "") s in
  re_sub_non_numeric s.

(** [vnd_to_float], lines 61-79. *)
Definition vnd_to_float (s : option pystr) : Q :=
  match s with
  | None => 0
  | Some s =>
      let s := vnd_normalize s in
      if nonempty s
      then match py_float s with
           | Ok v => v
           | Raise _ => 0
           end
      else 0
  end.

(** [re.search(r"(\d+(?:\.\d+)?)", s)], giving [group(1)]: the leftmost
    run of digits, extended by a point and a further run of digits when
    both are there. *)
Fixpoint search_decimal_token (s : pystr) : option pystr :=
  match s with
  | [] => None
  | c :: s' =>
      if is_digit c then
        let int_part := take_digits s in
        match drop_digits s with
        | d :: frac =>
            if (d =? chr_dot)%N && nonempty (take_digits frac)
            then Some (int_part ++ chr_dot :: take_digits frac)
            else Some int_part
        | [] => Some int_part
        end
      else search_decimal_token s'
  end.

(** [percent_to_float], lines 97-103. *)
Definition percent_to_float (s : option pystr) : result Q :=
  match s with
  | None => Ok 0
  | Some s =>
      let s := replace (u ",") (u ".") s in
      match search_decimal_token s with
      | Some g => py_float g
      | None => Ok 0
      end
  end.

End Parsers.

(** ** The application record *)

(** The dictionary of lines 42-59, one field per key. *)
Record LoanApplication : Type := mk_app {
  ten_khach_hang : pystr;
  cccd : pystr;
  noi_cu_tru : pystr;
  so_dien_thoai : pystr;
  muc_dich_vay : pystr;
  tong_nhu_cau_von : Q;
  von_doi_ung : Q;
  so_tien_vay : Q;
  lai_suat_nam : Q;
  thoi_gian_vay_thang : Z;
  ky_han_tra : pystr;
  thu_nhap_thang : Q;
  gia_tri_tsdb : Q;
  tong_no_hien_tai : Q;
  loi_nhuan_rong_nam : Q;
  tong_von_dau_tu : Q
}.

Definition FIELD_DEFAULTS : LoanApplication :=
  {| ten_khach_hang := u "";
     cccd := u "";
     noi_cu_tru := u "";
     so_dien_thoai := u "";
     muc_dich_vay := u "";
     tong_nhu_cau_von := 0;
     von_doi_ung := 0;
     so_tien_vay := 0;
     lai_suat_nam := 10;
     thoi_gian_vay_thang := 12;
     ky_han_tra := u "Tháng";
     thu_nhap_thang := 0;
     gia_tri_tsdb := 0;
     tong_no_hien_tai := 0;
     loi_nhuan_rong_nam := 0;
     tong_von_dau_tu := 0 |}.

(** [data[key] = v], one function per assigned key. *)
Definition set_ten_khach_hang (v : pystr) (d : LoanApplication) :=
  mk_app v (cccd d) (noi_cu_tru d) (so_dien_thoai d) (muc_dich_vay d)
    (tong_nhu_cau_von d) (von_doi_ung d) (so_tien_vay d) (lai_suat_nam d)
    (thoi_gian_vay_thang d) (ky_han_tra d) (thu_nhap_thang d)
    (gia_tri_tsdb d) (tong_no_hien_tai d) (loi_nhuan_rong_nam d)
    (tong_von_dau_tu d).
Definition set_cccd (v : pystr) (d : LoanApplication) :=
  mk_app (ten_khach_hang d) v (noi_cu_tru d) (so_dien_thoai d)
    (muc_dich_vay d) (tong_nhu_cau_von d) (von_doi_ung d) (so_tien_vay d)
    (lai_suat_nam d) (thoi_gian_vay_thang d) (ky_han_tra d)
    (thu_nhap_thang d) (gia_tri_tsdb d) (tong_no_hien_tai d)
    (loi_nhuan_rong_nam d) (tong_von_dau_tu d).
Definition set_noi_cu_tru (v : pystr) (d : LoanApplication) :=
  mk_app (ten_khach_hang d) (cccd d) v (so_dien_thoai d) (muc_dich_vay d)
    (tong_nhu_cau_von d) (von_doi_ung d) (so_tien_vay d) (lai_suat_nam d)
    (thoi_gian_vay_thang d) (ky_han_tra d) (thu_nhap_thang d)
    (gia_tri_tsdb d) (tong_no_hien_tai d) (loi_nhuan_rong_nam d)
    (tong_von_dau_tu d).
Definition set_so_dien_thoai (v : pystr) (d : LoanApplication) :=
  mk_app (ten_khach_hang d) (cccd d) (noi_cu_tru d) v (muc_dich_vay d)
    (tong_nhu_cau_von d) (von_doi_ung d) (so_tien_vay d) (lai_suat_nam d)
    (thoi_gian_vay_thang d) (ky_han_tra d) (thu_nhap_thang d)
    (gia_tri_tsdb d) (tong_no_hien_tai d) (loi_nhuan_rong_nam d)
    (tong_von_dau_tu d).
Definition set_muc_dich_vay (v : pystr) (d : LoanApplication) :=
  mk_app (ten_khach_hang d) (cccd d) (noi_cu_tru d) (so_dien_thoai d) v
    (tong_nhu_cau_von d) (von_doi_ung d) (so_tien_vay d) (lai_suat_nam d)
    (thoi_gian_vay_thang d) (ky_han_tra d) (thu_nhap_thang d)
    (gia_tri_tsdb d) (tong_no_hien_tai d) (loi_nhuan_rong_nam d)
    (tong_von_dau_tu d).
Definition set_tong_nhu_cau_von (v : Q) (d : LoanApplication) :=
  mk_app (ten_khach_hang d) (cccd d) (noi_cu_tru d) (so_dien_thoai d)
    (muc_dich_vay d) v (von_doi_ung d) (so_tien_vay d) (lai_suat_nam d)
    (thoi_gian_vay_thang d) (ky_han_tra d) (thu_nhap_thang d)
    (gia_tri_tsdb d) (tong_no_hien_tai d) (loi_nhuan_rong_nam d)
    (tong_von_dau_tu d).
Definition set_von_doi_ung (v : Q) (d : LoanApplication) :=
  mk_app (ten_khach_hang d) (cccd d) (noi_cu_tru d) (so_dien_thoai d)
    (muc_dich_vay d) (tong_nhu_cau_von d) v (so_tien_vay d) (lai_suat_nam d)
    (thoi_gian_vay_thang d) (ky_han_tra d) (thu_nhap_thang d)
    (gia_tri_tsdb d) (tong_no_hien_tai d) (loi_nhuan_rong_nam d)
    (tong_von_dau_tu d).
Definition set_so_tien_vay (v : Q) (d : LoanApplication) :=
  mk_app (ten_khach_hang d) (cccd d) (noi_cu_tru d) (so_dien_thoai d)
    (muc_dich_vay d) (tong_nhu_cau_von d) (von_doi_ung d) v (lai_suat_nam d)
    (thoi_gian_vay_thang d) (ky_han_tra d) (thu_nhap_thang d)
    (gia_tri_tsdb d) (tong_no_hien_tai d) (loi_nhuan_rong_nam d)
    (tong_von_dau_tu d).
Definition set_lai_suat_nam (v : Q) (d : LoanApplication) :=
  mk_app (ten_khach_hang d) (cccd d) (noi_cu_tru d) (so_dien_thoai d)
    (muc_dich_vay d) (tong_nhu_cau_von d) (von_doi_ung d) (so_tien_vay d) v
    (thoi_gian_vay_thang d) (ky_han_tra d) (thu_nhap_thang d)
    (gia_tri_tsdb d) (tong_no_hien_tai d) (loi_nhuan_rong_nam d)
    (tong_von_dau_tu d).
Definition set_thoi_gian_vay_thang (v : Z) (d : LoanApplication) :=
  mk_app (ten_khach_hang d) (cccd d) (noi_cu_tru d) (so_dien_thoai d)
    (muc_dich_vay d) (tong_nhu_cau_von d) (von_doi_ung d) (so_tien_vay d)
    (lai_suat_nam d) v (ky_han_tra d) (thu_nhap_thang d)
    (gia_tri_tsdb d) (tong_no_hien_tai d) (loi_nhuan_rong_nam d)
    (tong_von_dau_tu d).
Definition set_thu_nhap_thang (v : Q) (d : LoanApplication) :=
  mk_app (ten_khach_hang d) (cccd d) (noi_cu_tru d) (so_dien_thoai d)
    (muc_dich_vay d) (tong_nhu_cau_von d) (von_doi_ung d) (so_tien_vay d)
    (lai_suat_nam d) (thoi_gian_vay_thang d) (ky_han_tra d) v
    (gia_tri_tsdb d) (tong_no_hien_tai d) (loi_nhuan_rong_nam d)
    (tong_von_dau_tu d).
Definition set_gia_tri_tsdb (v : Q) (d : LoanApplication) :=
  mk_app (ten_khach_hang d) (cccd d) (noi_cu_tru d) (so_dien_thoai d)
    (muc_dich_vay d) (tong_nhu_cau_von d) (von_doi_ung d) (so_tien_vay d)
    (lai_suat_nam d) (thoi_gian_vay_thang d) (ky_han_tra d)
    (thu_nhap_thang d) v (tong_no_hien_tai d) (loi_nhuan_rong_nam d)
    (tong_von_dau_tu d).
Definition set_loi_nhuan_rong_nam (v : Q) (d : LoanApplication) :=
  mk_app (ten_khach_hang d) (cccd d) (noi_cu_tru d) (so_dien_thoai d)
    (muc_dich_vay d) (tong_nhu_cau_von d) (von_doi_ung d) (so_tien_vay d)
    (lai_suat_nam d) (thoi_gian_vay_thang d) (ky_han_tra d)
    (thu_nhap_thang d) (gia_tri_tsdb d) (tong_no_hien_tai d) v
    (tong_von_dau_tu d).
Definition set_tong_von_dau_tu (v : Q) (d : LoanApplication) :=
  mk_app (ten_khach_hang d) (cccd d) (noi_cu_tru d) (so_dien_thoai d)
    (muc_dich_vay d) (tong_nhu_cau_von d) (von_doi_ung d) (so_tien_vay d)
    (lai_suat_nam d) (thoi_gian_vay_thang d) (ky_han_tra d)
    (thu_nhap_thang d) (gia_tri_tsdb d) (tong_no_hien_tai d)
    (loi_nhuan_rong_nam d) v.

(** ** Field extractor *)

Inductive re_flag : Type :=
| IGNORECASE
| DOTALL.

(** A match object; every pattern below has exactly one capturing group. *)
Record Match : Type := mk_match { group1 : pystr }.

(** The patterns of lines 130-223, as written in the source. *)
Definition ten_pattern1 : string :=
  "(?:\d+\.\s*)?Họ\s+và\s+tên\s*[:：]\s*([A-ZÀÁẢÃẠĂẰẮẲẴẶÂẦẤẨẪẬĐÈÉẺẼẸÊỀẾỂỄỆÌÍỈĨỊÒÓỎÕỌÔỒỐỔỖỘƠỜỚỞỠỢÙÚỦŨỤƯỪỨỬỮỰỲÝỶỸỴ][a-zàáảãạăằắẳẵặâầấẨẫậđèéẻẽẹêềếểễệìíỉĩịòóỏõọôồốổỗộơờớởỡợùúủũụưừứửữựỳýỷỹỵA-ZÀÁẢÃẠĂẰẮẲẴẶÂẦẤẨẪẬĐÈÉẺẼẸÊỀẾỂỄỆÌÍỈĨỊÒÓỎÕỌÔỒỐỔỖỘƠỜỚỞỠỢÙÚỦŨỤƯỪỨỬỮỰỲÝỶỸỴ\s]+)".
Definition ten_pattern2 : string :=
  "(?:Ông|Bà)\s*\((?:bà|ông)\)\s*[:：]\s*([A-ZÀÁẢÃẠĂẰẮẲẴẶÂẦẤẨẪẬĐÈÉẺẼẸÊỀẾỂỄỆÌÍỈĨỊÒÓỎÕỌÔỒỐỔỖỘƠỜỚỞỠỢÙÚỦŨỤƯỪỨỬỮỰỲÝỶỸỴ][a-zàáảãạăằắẳẵặâầấẨẫậđèéẻẽẹêềếểễệìíỉĩịòóỏõọôồốổỗộơờớởỡợùúủũụưừứửữựỳýỷỹỵA-ZÀÁẢÃẠĂẰẮẲẴẶÂẦẤẨẪẬĐÈÉẺẼẸÊỀẾỂỄỆÌÍỈĨỊÒÓỎÕỌÔỒỐỔỖỘƠỜỚỞỠỢÙÚỦŨỤƯỪỨỬỮỰỲÝỶỸỴ\s]+)".
Definition cccd_pattern : string :=
  "(?:CMND|CCCD)(?:\/(?:CCCD|CMND))?(?:\/hộ\s*chiếu)?\s*[:：]\s*(\d{9,12})".
Definition noi_cu_tru_pattern : string :=
  "Nơi\s*cư\s*trú\s*[:：]\s*([^\n]+?)(?=\n|Số\s*điện\s*thoại|$)".
Definition sdt_pattern : string :=
  "Số\s*điện\s*thoại\s*[:：]\s*(0\d{9,10})".
Definition muc_dich_pattern1 : string :=
  "Mục\s*đích\s*vay\s*[:：]\s*([^\n]+)".
Definition muc_dich_pattern2 : string :=
  "Vốn\s*vay\s*Agribank.*?[:：].*?(?:Thực\s*hiện|Sử\s*dụng\s*vào)\s*([^\n]+)".
Definition tnc_pattern : string :=
  "(?:Tổng\s*nhu\s*cầu\s*vốn|1\.\s*Tổng\s*nhu\s*cầu\s*vốn)\s*[:：]\s*([\d\.,]+)".
Definition von_du_pattern : string :=
  "Vốn\s*đối\s*ứng\s*(?:tham\s*gia)?[^\d]*([\d\.,]+)\s*đồng".
Definition so_tien_vay_pattern : string :=
  "Vốn\s*vay\s*Agribank\s*(?:số\s*tiền)?[:\s]*([\d\.,]+)\s*đồng".
Definition thoi_han_pattern : string :=
  "Thời\s*hạn\s*vay\s*[:：]\s*(\d+)\s*tháng".
Definition lai_suat_pattern : string :=
  "Lãi\s*suất\s*[:：]\s*([\d\.,]+)\s*%".
Definition thu_nhap_du_an_pattern : string :=
  "Từ\s*nguồn\s*thu\s*của\s*dự\s*án[^\d]*([\d\.,]+)\s*đồng\s*/\s*tháng".
Definition thu_nhap_luong_pattern : string :=
  "Thu\s*nhập\s*từ\s*lương\s*[:：]\s*([\d\.,]+)\s*đồng\s*/\s*tháng".
Definition tong_thu_nhap_pattern : string :=
  "Tổng\s*thu\s*nhập\s*(?:ổn\s*định)?\s*(?:hàng\s*)?tháng\s*[:：]\s*([\d\.,]+)\s*đồng".
Definition tsdb_pattern1 : string :=
  "Tài\s*sản\s*1[^\n]*Giá\s*trị\s*[:：]\s*([\d\.,]+)\s*đồng".
Definition tsdb_pattern2 : string :=
  "Giá\s*trị\s*nhà\s*dự\s*kiến\s*mua\s*[:：]\s*([\d\.,]+)\s*đồng".
Definition loi_nhuan_pattern : string :=
  "Lợi\s*nhuận\s*(?:ròng)?\s*(?:năm)?[^\d]*([\d\.,]+)\s*đồng".

(** Every pattern with the flags it is searched with. *)
Definition rule_patterns : list (string * list re_flag) :=
  [ (ten_pattern1, [IGNORECASE]);
    (ten_pattern2, [IGNORECASE]);
    (cccd_pattern, [IGNORECASE]);
    (noi_cu_tru_pattern, [IGNORECASE; DOTALL]);
    (sdt_pattern, [IGNORECASE]);
    (muc_dich_pattern1, [IGNORECASE]);
    (muc_dich_pattern2, [IGNORECASE; DOTALL]);
    (tnc_pattern, [IGNORECASE]);
    (von_du_pattern, [IGNORECASE]);
    (so_tien_vay_pattern, [IGNORECASE]);
    (thoi_han_pattern, [IGNORECASE]);
    (lai_suat_pattern, [IGNORECASE]);
    (thu_nhap_du_an_pattern, [IGNORECASE]);
    (thu_nhap_luong_pattern, [IGNORECASE]);
    (tong_thu_nhap_pattern, [IGNORECASE]);
    (tsdb_pattern1, [IGNORECASE; DOTALL]);
    (tsdb_pattern2, [IGNORECASE]);
    (loi_nhuan_pattern, [IGNORECASE]) ].

(** The cross-field repair of lines 230-237, in the order of the source:
    total capital need, then total investment, then collateral value. *)
Definition cross_field_repair (data : LoanApplication) : LoanApplication :=
  let data :=
    if Qeq_bool (tong_nhu_cau_von data) 0
       && Qltb 0 (von_doi_ung data + so_tien_vay data)
    then set_tong_nhu_cau_von (von_doi_ung data + so_tien_vay data) data
    else data in
  let data :=
    if Qeq_bool (tong_von_dau_tu data) 0
    then set_tong_von_dau_tu (tong_nhu_cau_von data) data
    else data in
  let data :=
    if Qeq_bool (gia_tri_tsdb data) 0 && Qltb 0 (tong_nhu_cau_von data)
    then set_gia_tri_tsdb (tong_nhu_cau_von data) data
    else data in
  data.

Section Extraction.

Variable unicode_decimal : char -> option N.

(** [re.search(pattern, string, flags)]: the first match, or [None]. *)
Variable re_search : string -> list re_flag -> pystr -> option Match.

(** The module-level name [Document]: [None] when python-docx could not
    be imported (lines 19-22), otherwise the reader, which gives the
    texts of the document's paragraphs or raises. *)
Variable Document : option (list Byte.byte -> result (list pystr)).

(** Lines 124-127: the paragraphs joined, cut again at every newline,
    each line stripped, blank lines dropped. *)
Definition normalize_text (paragraphs : list pystr) : pystr :=
  let full_text := join [chr_newline] paragraphs in
  let lines :=
    map strip
      (filter (fun line => nonempty (strip line))
         (split chr_newline full_text)) in
  join [chr_newline] lines.

(** A numeric capture goes through [vnd_to_float]. *)
Definition amount (m : Match) : Q :=
  vnd_to_float unicode_decimal (Some (group1 m)).

(** *** 1. Customer (lines 129-153) *)

Definition rule_ten_khach_hang (full_text : pystr) (data : LoanApplication)
  : LoanApplication :=
  match re_search ten_pattern1 [IGNORECASE] full_text with
  | Some m => set_ten_khach_hang (strip (group1 m)) data
  | None =>
      match re_search ten_pattern2 [IGNORECASE] full_text with
      | Some m => set_ten_khach_hang (strip (group1 m)) data
      | None => data
      end
  end.

Definition rule_cccd (full_text : pystr) (data : LoanApplication)
  : LoanApplication :=
  match re_search cccd_pattern [IGNORECASE] full_text with
  | Some m => set_cccd (strip (group1 m)) data
  | None => data
  end.

Definition rule_noi_cu_tru (full_text : pystr) (data : LoanApplication)
  : LoanApplication :=
  match re_search noi_cu_tru_pattern [IGNORECASE; DOTALL] full_text with
  | Some m => set_noi_cu_tru (strip (group1 m)) data
  | None => data
  end.

Definition rule_so_dien_thoai (full_text : pystr) (data : LoanApplication)
  : LoanApplication :=
  match re_search sdt_pattern [IGNORECASE] full_text with
  | Some m => set_so_dien_thoai (strip (group1 m)) data
  | None => data
  end.

(** *** 2. Use of funds (lines 155-189) *)

Definition rule_muc_dich_vay (full_text : pystr) (data : LoanApplication)
  : LoanApplication :=
  match re_search muc_dich_pattern1 [IGNORECASE] full_text with
  | Some m => set_muc_dich_vay (strip (group1 m)) data
  | None =>
      match re_search muc_dich_pattern2 [IGNORECASE; DOTALL] full_text with
      | Some m => set_muc_dich_vay (firstn 200 (strip (group1 m))) data
      | None => data
      end
  end.

Definition rule_tong_nhu_cau_von (full_text : pystr)
    (data : LoanApplication) : LoanApplication :=
  match re_search tnc_pattern [IGNORECASE] full_text with
  | Some m => set_tong_nhu_cau_von (amount m) data
  | None => data
  end.

Definition rule_von_doi_ung (full_text : pystr) (data : LoanApplication)
  : LoanApplication :=
  match re_search von_du_pattern [IGNORECASE] full_text with
  | Some m => set_von_doi_ung (amount m) data
  | None => data
  end.

Definition rule_so_tien_vay (full_text : pystr) (data : LoanApplication)
  : LoanApplication :=
  match re_search so_tien_vay_pattern [IGNORECASE] full_text with
  | Some m => set_so_tien_vay (amount m) data
  | None => data
  end.

Definition rule_thoi_gian_vay_thang (full_text : pystr)
    (data : LoanApplication) : result LoanApplication :=
  match re_search thoi_han_pattern [IGNORECASE] full_text with
  | Some m =>
      n <- py_int unicode_decimal (group1 m) ;;
      Ok (set_thoi_gian_vay_thang n data)
  | None => Ok data
  end.

Definition rule_lai_suat_nam (full_text : pystr) (data : LoanApplication)
  : result LoanApplication :=
  match re_search lai_suat_pattern [IGNORECASE] full_text with
  | Some m =>
      v <- percent_to_float unicode_decimal (Some (group1 m)) ;;
      Ok (set_lai_suat_nam v data)
  | None => Ok data
  end.

(** *** 3. Repayment sources and income (lines 191-209) *)

Definition find_thu_nhap_du_an (full_text : pystr) : Q :=
  match re_search thu_nhap_du_an_pattern [IGNORECASE] full_text with
  | Some m => amount m
  | None => 0
  end.

Definition find_thu_nhap_luong (full_text : pystr) : Q :=
  match re_search thu_nhap_luong_pattern [IGNORECASE] full_text with
  | Some m => amount m
  | None => 0
  end.

Definition rule_thu_nhap_thang (full_text : pystr)
    (thu_nhap_du_an thu_nhap_luong : Q) (data : LoanApplication)
  : LoanApplication :=
  match re_search tong_thu_nhap_pattern [IGNORECASE] full_text with
  | Some m => set_thu_nhap_thang (amount m) data
  | None => set_thu_nhap_thang (thu_nhap_luong + thu_nhap_du_an) data
  end.

(** *** 4. Collateral (lines 211-220) *)

Definition rule_gia_tri_tsdb (full_text : pystr) (data : LoanApplication)
  : LoanApplication :=
  match re_search tsdb_pattern1 [IGNORECASE; DOTALL] full_text with
  | Some m => set_gia_tri_tsdb (amount m) data
  | None =>
      match re_search tsdb_pattern2 [IGNORECASE] full_text with
      | Some m => set_gia_tri_tsdb (amount m) data
      | None => data
      end
  end.

(** *** 5. Additional information (lines 222-228) *)

Definition rule_loi_nhuan_rong_nam (full_text : pystr)
    (thu_nhap_du_an : Q) (data : LoanApplication) : LoanApplication :=
  match re_search loi_nhuan_pattern [IGNORECASE] full_text with
  | Some m => set_loi_nhuan_rong_nam (amount m) data
  | None =>
      if Qltb 0 thu_nhap_du_an
      then set_loi_nhuan_rong_nam (thu_nhap_du_an * 12) data
      else data
  end.

(** Lines 129-239: the rules in the order of the source, then the
    repair. *)
Definition extract_fields (data : LoanApplication) (full_text : pystr)
  : result LoanApplication :=
  let data := rule_ten_khach_hang full_text data in
  let data := rule_cccd full_text data in
  let data := rule_noi_cu_tru full_text data in
  let data := rule_so_dien_thoai full_text data in
  let data := rule_muc_dich_vay full_text data in
  let data := rule_tong_nhu_cau_von full_text data in
  let data := rule_von_doi_ung full_text data in
  let data := rule_so_tien_vay full_text data in
  data <- rule_thoi_gian_vay_thang full_text data ;;
  data <- rule_lai_suat_nam full_text data ;;
  let thu_nhap_du_an := find_thu_nhap_du_an full_text in
  let thu_nhap_luong := find_thu_nhap_luong full_text in
  let data :=
    rule_thu_nhap_thang full_text thu_nhap_du_an thu_nhap_luong data in
  let data := rule_gia_tri_tsdb full_text data in
  let data := rule_loi_nhuan_rong_nam full_text thu_nhap_du_an data in
  Ok (cross_field_repair data).

(** [extract_from_docx], lines 116-239. *)
Definition extract_from_docx (file_bytes : list Byte.byte)
  : result LoanApplication :=
  let data := FIELD_DEFAULTS in
  match Document with
  | None => Ok data
  | Some Document =>
      paragraphs <- Document file_bytes ;;
      extract_fields data (normalize_text paragraphs)
  end.

(** No rule matches the text. *)
Definition no_rule_matches (full_text : pystr) : Prop :=
  forall p fl, In (p, fl) rule_patterns -> re_search p fl full_text = None.


End Extraction.

(** A reader that, like python-docx, opens the bytes as a zip archive: an
    archive holds at least its 22-byte end-of-central-directory record, and
    anything shorter raises [BadZipFile].  What is read from longer inputs
    is given by [parse]. *)
Definition zip_reader (parse : list Byte.byte -> result (list pystr))
    (file_bytes : list Byte.byte) : result (list pystr) :=
  if (List.length file_bytes <? 22)%nat then Raise BadZipFile
  else parse file_bytes.

(** ** Metrics engine *)

Record MetricsResult : Type := mk_metrics {
  PMT_thang : Q;
  DSR : pyfloat;
  E_over_C : pyfloat;
  LTV : pyfloat;
  Debt_over_Income : Q;
  ROI : pyfloat;
  CFR : pyfloat;
  Coverage : pyfloat;
  Phuong_an_hop_ly : bool;
  Score_AI_demo : Q
}.

(** [math.isclose(a, b, rel_tol=..., abs_tol=...)] on finite numbers. *)
Definition isclose (a b rel_tol abs_tol : Q) : bool :=
  if Qeq_bool a b then true
  else
    let diff := Qabs (b - a) in
    Qle_bool diff (Qabs (rel_tol * b))
    || Qle_bool diff (Qabs (rel_tol * a))
    || Qle_bool diff abs_tol.

(** [num / den if guard else np.nan]. *)
Definition ratio_or_nan (guard : bool) (num den : Q) : result pyfloat :=
  if guard then q <- py_div num den ;; Ok (Num q) else Ok NaN.

Definition eps : Q := 1 # 1000000000.

(** The score of lines 325-336, before rounding. *)
Definition score_sum (dsr ltv e_over_c cfr coverage : pyfloat) : Q :=
  let score := 0 in
  let score :=
    match dsr with
    | Num x => score + py_max 0 (1 - py_min 1 x) * (1 # 4)
    | NaN => score
    end in
  let score :=
    match ltv with
    | Num x => score + py_max 0 (1 - py_min 1 x) * (1 # 4)
    | NaN => score
    end in
  let score :=
    match e_over_c with
    | Num x => score + py_min 1 (x / (3 # 10)) * (1 # 5)
    | NaN => score
    end in
  let score :=
    match cfr with
    | Num x => score + py_max 0 (py_min 1 x) * (1 # 5)
    | NaN => score
    end in
  let score :=
    match coverage with
    | Num x => score + py_min 1 (x / (3 # 2)) * (1 # 10)
    | NaN => score
    end in
  score.

(** [compute_metrics], lines 302-337. *)
Definition compute_metrics (d : LoanApplication) : result MetricsResult :=
  pmt <- annuity_payment (so_tien_vay d) (lai_suat_nam d)
           (thoi_gian_vay_thang d) ;;
  let thu_nhap_thang := py_max eps (thu_nhap_thang d) in
  dsr <- ratio_or_nan (Qltb 0 thu_nhap_thang) pmt thu_nhap_thang ;;
  let tong_nhu_cau := tong_nhu_cau_von d in
  let von_doi_ung := von_doi_ung d in
  let so_tien_vay := so_tien_vay d in
  let gia_tri_tsdb := gia_tri_tsdb d in
  let tong_no_hien_tai := tong_no_hien_tai d in
  let loi_nhuan_rong_nam := loi_nhuan_rong_nam d in
  let tong_von_dau_tu := tong_von_dau_tu d in
  e_over_c <- ratio_or_nan (Qltb 0 tong_nhu_cau) von_doi_ung tong_nhu_cau ;;
  ltv <- ratio_or_nan (Qltb 0 gia_tri_tsdb) so_tien_vay gia_tri_tsdb ;;
  let thu_nhap_nam := thu_nhap_thang * 12 in
  debt_over_income <-
    py_div (tong_no_hien_tai + so_tien_vay) (py_max eps thu_nhap_nam) ;;
  roi <- ratio_or_nan (Qltb 0 tong_von_dau_tu)
           loi_nhuan_rong_nam (py_max eps tong_von_dau_tu) ;;
  cfr <- ratio_or_nan (Qltb 0 thu_nhap_thang)
           (thu_nhap_thang - pmt) thu_nhap_thang ;;
  coverage <- ratio_or_nan (Qltb 0 so_tien_vay)
                gia_tri_tsdb (py_max eps so_tien_vay) ;;
  let hop_ly :=
    isclose tong_nhu_cau (von_doi_ung + so_tien_vay) (1 # 50) 1000000 in
  let score := score_sum dsr ltv e_over_c cfr coverage in
  Ok (mk_metrics pmt dsr e_over_c ltv debt_over_income roi cfr coverage
        hop_ly (py_round score 3)).

(** ** Display formats *)

Definition chr_comma : char := 44%N.
Definition chr_underscore : char := 95%N.

(** The character of a decimal digit. *)
Definition digit_char (d : N) : char := (48 + d)%N.

(** The decimal digits of [n], least significant first; [fuel] bounds their
    number. *)
Fixpoint digits_rev (fuel : nat) (n : N) : pystr :=
  match fuel with
  | O => []
  | S fuel' =>
      if (n <? 10)%N then [digit_char n]
      else digit_char (n mod 10) :: digits_rev fuel' (n / 10)
  end.

(** [str(n)] for a natural number: a number below [2 ^ k] has at most [k]
    digits. *)
Definition decimal_digits (n : N) : pystr :=
  rev (digits_rev (S (N.to_nat (N.log2 n))) n).

(** The thousands grouping of the format option [,], on the digits taken
    from the right: [k] digits are still to come before the next
    separator. *)
Fixpoint group3_rev (sep : char) (k : nat) (ds : pystr) : pystr :=
  match ds with
  | [] => []
  | d :: ds' =>
      match k with
      | O => sep :: d :: group3_rev sep 2 ds'
      | S k' => d :: group3_rev sep k' ds'
      end
  end.

Definition group3 (sep : char) (ds : pystr) : pystr :=
  rev (group3_rev sep 3 (rev ds)).

(** The formats [f"{x:,.Nf}"] ([grouping] set) and [f"{x:.Nf}"]: the sign
    of [x], the magnitude rounded to [decimals] places, its integer digits
    (grouped by thousands or not) and, when [decimals] is not 0, a point and
    exactly [decimals] digits. *)
Definition format_fixed (grouping : bool) (decimals : nat) (x : Q) : pystr :=
  let scale := (10 ^ N.of_nat decimals)%N in
  let n := Z.to_N (round_half_even (Qabs x * inject_Z (Z.of_N scale))) in
  let int_digits := decimal_digits (n / scale) in
  let int_part :=
    if grouping then group3 chr_comma int_digits else int_digits in
  let frac_digits := decimal_digits (n mod scale) in
  let frac_part :=
    repeat (digit_char 0) (decimals - List.length frac_digits) ++ frac_digits in
  (if Qltb x 0 then [chr_minus] else [])
  ++ int_part
  ++ match decimals with
     | O => []
     | S _ => chr_dot :: frac_part
     end.

(** [format_vnd], lines 81-86.  [float(amount)] cannot raise on a float, so
    the handler is never entered. *)
Definition format_vnd (amount : Q) : pystr :=
  replace (u ",") (u ".") (format_fixed true 0 amount).

(** [format_vnd_float], lines 88-95. *)
Definition format_vnd_float (amount : Q) : pystr :=
  let s := format_fixed true 2 amount in
  replace (u "_") (u ".") (replace (u ".") (u ",") (replace (u ",") (u "_") s)).

Section Inputs.

Variable unicode_decimal : char -> option N.

(** [st.text_input(label, value=...)]: what is in the box when the script
    runs, the proposed value or what the user typed over it. *)
Variable text_input : pystr -> pystr -> pystr.

(** [vn_money_input], lines 105-108. *)
Definition vn_money_input (label : pystr) (value : Q) : Q :=
  let raw := text_input label (format_vnd value) in
  vnd_to_float unicode_decimal (Some raw).

(** [vn_percent_input], lines 110-114. *)
Definition vn_percent_input (label : pystr) (value : Q) : result Q :=
  let shown := replace (u ".") (u ",") (format_fixed false 2 value) in
  let raw := text_input label shown in
  percent_to_float unicode_decimal (Some raw).

End Inputs.

(** ** Styled schedule *)





(** ** Chart of the ratios *)

Inductive bar_color : Type :=
  | green
  | red
  | gray.

(** The two colours of a reference line: "#ffc107" and "#007bff". *)
Inductive line_color : Type :=
  | amber
  | blue.

Inductive bound_kind : Type :=
  | Max
  | Min.

(** A row of [df_metrics] with the columns of lines 345-355. *)
Record chart_row : Type := mk_chart_row {
  Chi_tieu : string;
  Gia_tri : Q;
  Nguong_tham_chieu : Q
}.

(** The row with the colour and the value in percent of lines 372-373:
    what [px.bar] draws one bar from. *)
Record chart_bar : Type := mk_bar {
  bar_row : chart_row;
  Mau : bar_color;
  Gia_tri_pct : Q
}.

(** A dashed reference line with its annotation, lines 391-413. *)
Record reference_line : Type := mk_line {
  line_index : nat;
  line_level : Q;
  line_colour : line_color;
  annotation_kind : bound_kind;
  annotation_level : Q
}.

(** What [create_metrics_chart] does: warn that Plotly is missing, say that
    there is nothing to draw, or draw the rows of [df_metrics], given here
    in the order of the data frame, and the reference lines. *)
Inductive chart_outcome : Type :=
  | PlotlyMissing
  | NotEnoughData
  | Chart (bars : list chart_bar) (lines : list reference_line).

(** Lines 345-355: the five ratios with their thresholds. *)
Definition metric_table (metrics : MetricsResult)
  : list (string * pyfloat * Q) :=
  [ ("DSR"%string, DSR metrics, 8 # 10);
    ("LTV"%string, LTV metrics, 8 # 10);
    ("E/C"%string, E_over_C metrics, 2 # 10);
    ("Coverage"%string, Coverage metrics, 12 # 10);
    ("CFR"%string, CFR metrics, 0) ].

(** [dropna(subset=[...]).reset_index(drop=True)], line 356. *)
Fixpoint dropna (rows : list (string * pyfloat * Q)) : list chart_row :=
  match rows with
  | [] => []
  | (name, NaN, ref) :: rest => dropna rest
  | (name, Num v, ref) :: rest => mk_chart_row name v ref :: dropna rest
  end.

(** [x in l] on strings. *)
Definition member (x : string) (l : list string) : bool :=
  existsb (String.eqb x) l.

(** [get_color], lines 362-370. *)
Definition get_color (row : chart_row) : bar_color :=
  let metric := Chi_tieu row in
  let value := Gia_tri row in
  let ref := Nguong_tham_chieu row in
  if member metric ["DSR"; "LTV"]%string then
    if Qle_bool value ref then green else red
  else if member metric ["E/C"; "Coverage"; "CFR"]%string then
    if Qle_bool ref value then green else red
  else gray.

(** The body of the loop of lines 386-413 for the row at [index]. *)
Definition reference_of (index : nat) (row : chart_row)
  : option reference_line :=
  let metric := Chi_tieu row in
  let ref_value := Nguong_tham_chieu row * 100 in
  let color := if Qltb 0 ref_value then amber else blue in
  if member metric ["DSR"; "LTV"]%string then
    Some (mk_line index ref_value color Max (ref_value + 3))
  else if member metric ["E/C"; "Coverage"]%string then
    Some (mk_line index ref_value color Min (ref_value - 3))
  else None.

Fixpoint reference_lines (index : nat) (rows : list chart_row)
  : list reference_line :=
  match rows with
  | [] => []
  | row :: rest =>
      match reference_of index row with
      | Some l => l :: reference_lines (S index) rest
      | None => reference_lines (S index) rest
      end
  end.

Section Chart.

(** Whether [go] and [px] were imported. *)
Variable plotly : bool.

(** [create_metrics_chart], lines 339-425, up to the figure: the rows of
    [df_metrics] with their colours and percentages, and the reference
    lines added to the figure. *)
Definition create_metrics_chart (metrics : MetricsResult) : chart_outcome :=
  if negb plotly then PlotlyMissing
  else
    let df_metrics := dropna (metric_table metrics) in
    match df_metrics with
    | [] => NotEnoughData
    | _ :: _ =>
        let bars :=
          map (fun row => mk_bar row (get_color row) (Gia_tri row * 100))
              df_metrics in
        Chart bars (reference_lines 0 df_metrics)
    end.

End Chart.

(** ** Notions used to state the properties *)



(** [Num q] when the guard holds, [NaN] otherwise. *)
Definition nan_unless (guard : bool) (q : Q) : pyfloat :=
  if guard then Num q else NaN.




(** Approximate equality as the specification words it: the distance is
    within 2% of the larger magnitude, or within 1,000,000. *)
Definition within_tolerance (a b : Q) : Prop :=
  Qabs (a - b) <= (1 # 50) * Qmax (Qabs a) (Qabs b)
  \/ Qabs (a - b) <= 1000000.

(** The payment the metrics are computed from. *)
Definition payment_of (d : LoanApplication) : result Q :=
  annuity_payment (so_tien_vay d) (lai_suat_nam d) (thoi_gian_vay_thang d).



(** What extraction gives for a document that states a loan of 100,000,000
    and nothing else: default rate and term, no income. *)
Definition no_income_application : LoanApplication :=
  cross_field_repair (set_so_tien_vay 100000000 FIELD_DEFAULTS).

(** A sample table of non-ASCII decimal digits: the Arabic-Indic digits
    U+0660 to U+0669. *)
Definition arabic_indic_decimal (c : char) : option N :=
  if ((1632 <=? c) && (c <=? 1641))%N then Some (c - 1632)%N else None.

(** Two sample texts and what [re.search] finds in them: the term in the
    first, the equity and the loan amount in the second; no other pattern
    of [rule_patterns] matches either text. *)
Definition term_text : pystr := u "Thời hạn vay: 24 tháng".

Definition funding_text : pystr :=
  u "Vốn đối ứng: 30.000.000 đồng"
  ++ chr_newline :: u "Vốn vay Agribank số tiền: 70.000.000 đồng".

Definition sample_matches : list (string * pystr * pystr) :=
  [ (thoi_han_pattern, term_text, u "24");
    (von_du_pattern, funding_text, u "30.000.000");
    (so_tien_vay_pattern, funding_text, u "70.000.000") ].

(** A stand-in for [re.search] that knows the sample texts and finds
    nothing anywhere else. *)
Definition sample_search (pattern : string) (flags : list re_flag)
    (s : pystr) : option Match :=
  match
    find (fun entry => String.eqb pattern (fst (fst entry))
                       && pystr_eqb s (snd (fst entry))) sample_matches
  with
  | Some entry => Some (mk_match (snd entry))
  | None => None
  end.

(** The smallest zip archive, an empty one: the end-of-central-directory
    record alone. *)
Definition empty_zip : list Byte.byte :=
  [Byte.x50; Byte.x4b; Byte.x05; Byte.x06] ++ repeat Byte.x00 18.

(** A stand-in reader that finds the given paragraphs in every archive. *)
Definition reader_of (paragraphs : list pystr)
  : list Byte.byte -> result (list pystr) :=
  zip_reader (fun _ => Ok paragraphs).

(** A complete application: 100,000,000 needed, 30,000,000 of equity,
    70,000,000 borrowed at 10% over 12 months, 15,000,000 of monthly
    income, collateral worth 150,000,000. *)
Definition sample_application : LoanApplication :=
  {| ten_khach_hang := u "Nguyễn Văn A";
     cccd := u "012345678901";
     noi_cu_tru := u "Hà Nội";
     so_dien_thoai := u "0912345678";
     muc_dich_vay := u "Mua nhà";
     tong_nhu_cau_von := 100000000;
     von_doi_ung := 30000000;
     so_tien_vay := 70000000;
     lai_suat_nam := 10;
     thoi_gian_vay_thang := 12;
     ky_han_tra := u "Tháng";
     thu_nhap_thang := 15000000;
     gia_tri_tsdb := 150000000;
     tong_no_hien_tai := 0;
     loi_nhuan_rong_nam := 0;
     tong_von_dau_tu := 100000000 |}.

(** [ideal r pmt c n]: [c 0], [c 1], ..., [c n] are balances that follow
    the recurrence of the schedule loop without ever being floored, and
    never increase. *)
Definition ideal (r pmt : Q) (c : nat -> Q) (n : nat) : Prop :=
  forall k, (k < n)%nat ->
    c (S k) == c k - (pmt - c k * r) /\ 0 <= c (S k) <= c k.

(** The keys that no rule and no repair assigns still hold their
    defaults. *)
Definition keeps_defaults (d : LoanApplication) : Prop :=
  ky_han_tra d = ky_han_tra FIELD_DEFAULTS /\
  tong_no_hien_tai d = tong_no_hien_tai FIELD_DEFAULTS.

(** *** Notions of the further properties *)

(** An ASCII digit. *)
Definition is_ascii_digit (c : char) : bool := ((48 <=? c) && (c <=? 57))%N.

(** The number written by digits given least significant first. *)
Fixpoint lsf_value (l : pystr) : N :=
  match l with
  | [] => 0%N
  | d :: l' => ((d - 48) + 10 * lsf_value l')%N
  end.

(** [c] with the character [a] replaced by [b]. *)
Definition subst_char (a b c : char) : char := if (c =? a)%N then b else c.

(** A character of a plainly written number: ASCII digit, minus or point. *)
Definition is_numeric_ascii (c : char) : bool :=
  is_ascii_digit c || (c =? chr_minus)%N || (c =? chr_dot)%N.

(** A magnitude with its sign, and the sign as it is written. *)
Definition signed (negative : bool) (v : Q) : Q := if negative then - v else v.
Definition sign_prefix (negative : bool) : pystr :=
  if negative then [chr_minus] else [].

(** The characters [vnd_to_float] looks at: digits, point, comma, minus. *)
Definition vnd_relevant (ud : char -> option N) (c : char) : bool :=
  is_digit ud c || (c =? chr_dot)%N || (c =? chr_comma)%N
  || (c =? chr_minus)%N.

(** The Unicode table does not list the currency marks U+0111 and U+20AB
    as decimal digits. *)
Definition marks_are_not_digits (ud : char -> option N) : Prop :=
  ud 273%N = None /\ ud 8363%N = None.

(** The characters kept by the final filter of [vnd_to_float]. *)
Definition numeric (ud : char -> option N) (c : char) : bool :=
  is_digit ud c || (c =? chr_dot)%N || (c =? chr_minus)%N.

(** The cross-field invariants: a total capital need of 0 only without
    positive funding, a total investment of 0 only with a total capital need
    of 0, a collateral value of 0 only without a positive total capital
    need. *)
Definition repaired (d : LoanApplication) : Prop :=
  (tong_nhu_cau_von d == 0 -> von_doi_ung d + so_tien_vay d <= 0) /\
  (tong_von_dau_tu d == 0 -> tong_nhu_cau_von d == 0) /\
  (gia_tri_tsdb d == 0 -> tong_nhu_cau_von d <= 0).


(** A text that does not begin with whitespace, and one that neither
    begins nor ends with it. *)
Definition starts_clean (s : pystr) : Prop :=
  match s with
  | [] => True
  | c :: _ => is_space c = false
  end.

Definition trimmed (s : pystr) : Prop :=
  starts_clean s /\ starts_clean (rev s).

(** The text fields of a record as the rules leave them: name, identity
    number, address and phone trimmed, the purpose without leading
    whitespace. *)
Definition text_fields_trimmed (d : LoanApplication) : Prop :=
  trimmed (ten_khach_hang d) /\ trimmed (cccd d) /\
  trimmed (noi_cu_tru d) /\ trimmed (so_dien_thoai d) /\
  starts_clean (muc_dich_vay d).

(** A third sample text, with the customer's name, and a stand-in for
    [re.search] that knows it: the first name pattern captures the name, no
    other pattern of [rule_patterns] matches. *)
Definition name_text : pystr := u "Họ và tên: Nguyễn Văn A".

Definition name_search (pattern : string) (flags : list re_flag)
    (s : pystr) : option Match :=
  if String.eqb pattern ten_pattern1 && pystr_eqb s name_text
  then Some (mk_match (u "Nguyễn Văn A"))
  else None.

(** An application whose rate and term make the annuity denominator
    vanish: r = -2 and (1 + r)^2 = 1. *)
Definition degenerate_application : LoanApplication :=
  set_lai_suat_nam (-2400) (set_thoi_gian_vay_thang 2 sample_application).

(** Metrics with three defined ratios. *)
Definition partial_metrics : MetricsResult :=
  mk_metrics 5000000 (Num (1 # 2)) NaN (Num (7 # 10)) 0 NaN (Num (1 # 2)) NaN
    true (1 # 2).

(** * Properties *)

(** ** Arithmetic helpers *)

Lemma Qltb_true (x y : Q) : Qltb x y = true <-> x < y.
Proof.
  unfold Qltb. rewrite negb_true_iff. split; intro H.
  - apply Qnot_le_lt. intro Hle. apply Qle_bool_iff in Hle. congruence.
  - destruct (Qle_bool y x) eqn:E; [|reflexivity].
    apply Qle_bool_iff in E. exfalso. apply (Qlt_not_le _ _ H E).
Qed.

Lemma Qltb_false (x y : Q) : Qltb x y = false <-> y <= x.
Proof.
  unfold Qltb. rewrite negb_false_iff. apply Qle_bool_iff.
Qed.

Lemma Qeq_bool_false (x y : Q) : Qeq_bool x y = false <-> ~ x == y.
Proof.
  split; intro H.
  - intro E. apply Qeq_bool_iff in E. congruence.
  - destruct (Qeq_bool x y) eqn:E; [|reflexivity].
    apply Qeq_bool_iff in E. contradiction.
Qed.

Lemma py_div_ok (a b : Q) : ~ b == 0 -> py_div a b = Ok (a / b).
Proof.
  intro H. unfold py_div. apply Qeq_bool_false in H. now rewrite H.
Qed.

Lemma py_max_cases (a b : Q) :
  (a < b /\ py_max a b = b) \/ (b <= a /\ py_max a b = a).
Proof.
  unfold py_max. destruct (Qltb a b) eqn:E.
  - left. split; [now apply Qltb_true|reflexivity].
  - right. split; [now apply Qltb_false|reflexivity].
Qed.


Lemma py_max_eps_pos (x : Q) : 0 < py_max eps x.
Proof.
  destruct (py_max_cases eps x) as [[H E]|[H E]]; rewrite E.
  - unfold eps in *. lra.
  - reflexivity.
Qed.

(** ** Rounding *)

Ltac qcompare_facts :=
  repeat match goal with
  | H : Qcompare _ _ = Eq |- _ => apply Qeq_alt in H
  | H : Qcompare _ _ = Lt |- _ => apply Qlt_alt in H
  | H : Qcompare _ _ = Gt |- _ => apply Qgt_alt in H
  end.


Lemma round_half_even_inject (z : Z) : round_half_even (inject_Z z) = z.
Proof.
  unfold round_half_even. rewrite Qfloor_Z.
  assert (E : Qcompare (inject_Z z - inject_Z z) (1 # 2) = Lt).
  { apply Qlt_alt. setoid_replace (inject_Z z - inject_Z z) with 0 by ring.
    reflexivity. }
  now rewrite E.
Qed.

Lemma Qfloor_mono (x y : Q) : x <= y -> (Qfloor x <= Qfloor y)%Z.
Proof. apply Qfloor_resp_le. Qed.

Lemma round_half_even_mono (x y : Q) :
  x <= y -> (round_half_even x <= round_half_even y)%Z.
Proof.
  intro Hxy.
  pose proof (Qfloor_mono x y Hxy) as Hf.
  pose proof (Qfloor_le x) as Hxl. pose proof (Qlt_floor x) as Hxh.
  pose proof (Qfloor_le y) as Hyl. pose proof (Qlt_floor y) as Hyh.
  rewrite inject_Z_plus in Hxh, Hyh.
  change (inject_Z 1) with 1 in Hxh, Hyh.
  destruct (Z.eq_dec (Qfloor x) (Qfloor y)) as [E|NE].
  - unfold round_half_even. rewrite <- E.
    destruct (Qcompare (x - inject_Z (Qfloor x)) (1 # 2)) eqn:Cx;
      destruct (Qcompare (y - inject_Z (Qfloor x)) (1 # 2)) eqn:Cy;
      qcompare_facts;
      try (destruct (Z.even (Qfloor x))); try lia; exfalso; lra.
  - assert (Hlt : (Qfloor x + 1 <= Qfloor y)%Z) by lia.
    transitivity (Qfloor x + 1)%Z.
    + unfold round_half_even.
      destruct (Qcompare (x - inject_Z (Qfloor x)) (1 # 2));
        try (destruct (Z.even (Qfloor x))); lia.
    + transitivity (Qfloor y); [exact Hlt|].
      unfold round_half_even.
      destruct (Qcompare (y - inject_Z (Qfloor y)) (1 # 2));
        try (destruct (Z.even (Qfloor y))); lia.
Qed.

Lemma round_half_even_comp (x y : Q) :
  x == y -> round_half_even x = round_half_even y.
Proof.
  intro E. apply Z.le_antisymm; apply round_half_even_mono; lra.
Qed.

#[global] Instance round_half_even_Proper :
  Proper (Qeq ==> eq) round_half_even.
Proof. intros x y E. now apply round_half_even_comp. Qed.

#[global] Instance py_round_Proper : Proper (Qeq ==> eq ==> Qeq) py_round.
Proof.
  intros x y E n m ->. unfold py_round. now rewrite E.
Qed.

Lemma py_round_0 (x : Q) : py_round x 0 == inject_Z (round_half_even x).
Proof.
  unfold py_round. simpl.
  rewrite (round_half_even_comp (x * inject_Z 1) x) by (unfold inject_Z; lra).
  unfold inject_Z at 2. field.
Qed.




(** ** The fixed payment *)



Lemma annuity_denominator_pos (r : Q) (N : Z) :
  0 < r -> (0 < N)%Z -> 0 < (1 + r) ^ N - 1.
Proof.
  intros Hr HN. assert (H : 1 < (1 + r) ^ N) by (apply Qpower_1_lt; [lra|lia]).
  lra.
Qed.

Lemma annuity_payment_annuity (P R : Q) (N : Z) :
  (0 < N)%Z -> 0 < R / 100 / 12 ->
  annuity_payment P R N =
  Ok (P * (R / 100 / 12) * (1 + R / 100 / 12) ^ N
      / ((1 + R / 100 / 12) ^ N - 1)).
Proof.
  intros HN Hr. unfold annuity_payment.
  destruct (Z.leb_spec N 0) as [H|_]; [lia|].
  assert (E : Qeq_bool (R / 100 / 12) 0 = false).
  { apply Qeq_bool_false. lra. }
  rewrite E. apply py_div_ok.
  pose proof (annuity_denominator_pos _ _ Hr HN). lra.
Qed.





(** ** The schedule *)


Section Schedule.

Variables (r pmt : Q) (start_date : Z).








End Schedule.





(** ** Metrics *)



Lemma ratio_or_nan_ok (guard : bool) (num den : Q) :
  (guard = true -> ~ den == 0) ->
  ratio_or_nan guard num den = Ok (nan_unless guard (num / den)).
Proof.
  intro H. unfold ratio_or_nan, nan_unless. destruct guard; [|reflexivity].
  rewrite py_div_ok by now apply H. reflexivity.
Qed.

Lemma guard_nonzero (x : Q) : Qltb 0 x = true -> ~ x == 0.
Proof. intros H E. apply Qltb_true in H. lra. Qed.

Lemma floored_nonzero (x : Q) : ~ py_max eps x == 0.
Proof. pose proof (py_max_eps_pos x). lra. Qed.

(** The metrics in closed form, once the payment is known. *)
Lemma compute_metrics_returns (d : LoanApplication) (pmt : Q) :
  payment_of d = Ok pmt ->
  let income := py_max eps (thu_nhap_thang d) in
  let dsr := Num (pmt / income) in
  let e_over_c :=
    nan_unless (Qltb 0 (tong_nhu_cau_von d))
      (von_doi_ung d / tong_nhu_cau_von d) in
  let ltv :=
    nan_unless (Qltb 0 (gia_tri_tsdb d)) (so_tien_vay d / gia_tri_tsdb d) in
  let cfr := Num ((income - pmt) / income) in
  let coverage :=
    nan_unless (Qltb 0 (so_tien_vay d))
      (gia_tri_tsdb d / py_max eps (so_tien_vay d)) in
  compute_metrics d =
  Ok (mk_metrics pmt dsr e_over_c ltv
        ((tong_no_hien_tai d + so_tien_vay d) / py_max eps (income * 12))
        (nan_unless (Qltb 0 (tong_von_dau_tu d))
           (loi_nhuan_rong_nam d / py_max eps (tong_von_dau_tu d)))
        cfr coverage
        (isclose (tong_nhu_cau_von d) (von_doi_ung d + so_tien_vay d)
           (1 # 50) 1000000)
        (py_round (score_sum dsr ltv e_over_c cfr coverage) 3)).
Proof.
  unfold payment_of. intros Hpmt. cbv zeta. unfold compute_metrics.
  rewrite Hpmt. cbn [bind].
  assert (Hinc : Qltb 0 (py_max eps (thu_nhap_thang d)) = true).
  { apply Qltb_true. apply py_max_eps_pos. }
  rewrite Hinc.
  rewrite !ratio_or_nan_ok;
    try (intros _; apply floored_nonzero);
    try (apply guard_nonzero).
  cbn [bind nan_unless].
  rewrite py_div_ok by apply floored_nonzero.
  reflexivity.
Qed.












(** ** Plan consistency *)

Lemma rel_tol_abs (x : Q) : Qabs ((1 # 50) * x) == (1 # 50) * Qabs x.
Proof. rewrite Qabs_Qmult. reflexivity. Qed.

Lemma scaled_max (x y d : Q) :
  d <= (1 # 50) * y \/ d <= (1 # 50) * x <-> d <= (1 # 50) * Qmax x y.
Proof.
  destruct (Q.max_spec x y) as [[H E]|[H E]]; rewrite E; split;
    try (intros [H1|H1]; lra); intro H1; [left|right]; exact H1.
Qed.

(** [math.isclose] with the tolerances of the source is the two-sided
    test of the specification. *)
Lemma isclose_within_tolerance (a b : Q) :
  isclose a b (1 # 50) 1000000 = true <-> within_tolerance a b.
Proof.
  unfold isclose, within_tolerance.
  rewrite <- scaled_max.
  assert (Hsym : Qabs (b - a) == Qabs (a - b))
    by (rewrite Qabs_Qminus; reflexivity).
  destruct (Qeq_bool a b) eqn:E.
  - apply Qeq_bool_iff in E. split; [intros _|reflexivity].
    right. rewrite E. setoid_replace (b - b) with 0 by ring. discriminate.
  - rewrite !orb_true_iff, !Qle_bool_iff, !rel_tol_abs, Hsym. tauto.
Qed.

(** C8. The plan-consistency flag is true exactly when the total capital
    need and equity + loan are within 2% of the larger magnitude or within
    1,000,000 of each other; 100,000,000 against 100,500,000 gives true and
    against 106,000,000 gives false. *)
Theorem plan_consistency_flag (d : LoanApplication) (pmt : Q) :
  payment_of d = Ok pmt ->
  exists res,
    compute_metrics d = Ok res /\
    (Phuong_an_hop_ly res = true
     <-> within_tolerance (tong_nhu_cau_von d)
           (von_doi_ung d + so_tien_vay d)) /\
    (tong_nhu_cau_von d == 100000000 ->
     von_doi_ung d + so_tien_vay d == 100500000 ->
     Phuong_an_hop_ly res = true) /\
    (tong_nhu_cau_von d == 100000000 ->
     von_doi_ung d + so_tien_vay d == 106000000 ->
     Phuong_an_hop_ly res = false).
Proof.
  intro Hpmt. pose proof (compute_metrics_returns d pmt Hpmt) as H.
  cbv zeta in H. eexists. split; [exact H|]. cbn [Phuong_an_hop_ly].
  split; [apply isclose_within_tolerance|split].
  - intros Ha Hb. apply isclose_within_tolerance. right.
    rewrite Ha, Hb. discriminate.
  - intros Ha Hb. apply not_true_is_false. intro Ht.
    apply isclose_within_tolerance in Ht. unfold within_tolerance in Ht.
    rewrite Ha, Hb in Ht. destruct Ht as [Ht|Ht]; now apply Ht.
Qed.

(** ** Zero income *)

(** With a monthly income of 0 the income is floored at [eps] before any
    ratio is formed, so DSR and CFR are quotients by [eps], never NaN. *)
Lemma zero_income_divides_by_eps (d : LoanApplication) (pmt : Q) :
  thu_nhap_thang d == 0 -> payment_of d = Ok pmt ->
  exists res,
    compute_metrics d = Ok res /\
    DSR res = Num (pmt / eps) /\ CFR res = Num ((eps - pmt) / eps).
Proof.
  intros Hinc Hpmt. pose proof (compute_metrics_returns d pmt Hpmt) as H.
  cbv zeta in H.
  assert (E : py_max eps (thu_nhap_thang d) = eps).
  { unfold py_max.
    assert (F : Qltb eps (thu_nhap_thang d) = false).
    { apply Qltb_false. rewrite Hinc. discriminate. }
    now rewrite F. }
  rewrite E in H. eexists. split; [exact H|]. split; reflexivity.
Qed.

(** C2 (the code departs from it). On [no_income_application], whose
    monthly income is 0, [compute_metrics] reports numbers for DSR and
    CFR, the payment divided by the floor 1e-9, where the claim expects
    NaN. *)
Theorem zero_income_ratios_not_nan :
  thu_nhap_thang no_income_application == 0 /\
  exists res dsr cfr,
    compute_metrics no_income_application = Ok res /\
    DSR res = Num dsr /\ CFR res = Num cfr /\
    isnan (DSR res) = false /\ isnan (CFR res) = false /\
    8791588000000000 < dsr /\ cfr < - 8791588000000000.
Proof.
  split; [reflexivity|].
  assert (Hp : exists pmt, payment_of no_income_application = Ok pmt).
  { eexists. vm_compute. reflexivity. }
  destruct Hp as [pmt Hp].
  destruct (zero_income_divides_by_eps no_income_application pmt
              (Qeq_refl _) Hp) as (res & Hres & Hd & Hc).
  exists res. do 2 eexists.
  split; [exact Hres|]. split; [exact Hd|]. split; [exact Hc|].
  rewrite Hd, Hc. split; [reflexivity|]. split; [reflexivity|].
  vm_compute in Hp. injection Hp as <-.
  split; vm_compute; reflexivity.
Qed.

(** ** The numeric parsers *)

Section ParserFacts.

Variable ud : char -> option N.

Lemma digit_not_punctuation (c : char) :
  is_digit ud c = true ->
  (c =? chr_minus)%N = false /\ (c =? chr_dot)%N = false.
Proof.
  unfold is_digit, decimal_digit, chr_minus, chr_dot. intro H.
  destruct ((48 <=? c) && (c <=? 57))%N eqn:E.
  - apply andb_true_iff in E. destruct E as [E1 E2].
    apply N.leb_le in E1. split; apply N.eqb_neq; lia.
  - destruct (c <? 128)%N eqn:F; [discriminate|].
    apply N.ltb_ge in F. split; apply N.eqb_neq; lia.
Qed.

Lemma take_digits_all (s : pystr) :
  forallb (is_digit ud) (take_digits ud s) = true.
Proof.
  induction s as [|c s IH]; simpl; [reflexivity|].
  destruct (is_digit ud c) eqn:E; simpl; [now rewrite E|reflexivity].
Qed.

(** A run of digits followed by something that is not a digit is split
    exactly there. *)
Lemma digits_then_rest (ds rest : pystr) :
  forallb (is_digit ud) ds = true ->
  match rest with
  | [] => True
  | c :: _ => is_digit ud c = false
  end ->
  take_digits ud (ds ++ rest) = ds /\ drop_digits ud (ds ++ rest) = rest.
Proof.
  intros Hds Hrest. induction ds as [|d ds IH]; simpl in *.
  - destruct rest as [|c rest]; simpl; [now split|].
    rewrite Hrest. now split.
  - apply andb_true_iff in Hds. destruct Hds as [Hd Hds].
    rewrite Hd. destruct (IH Hds) as [IH1 IH2]. now rewrite IH1, IH2.
Qed.

Lemma digits_only (ds : pystr) :
  forallb (is_digit ud) ds = true ->
  take_digits ud ds = ds /\ drop_digits ud ds = [].
Proof.
  intro H. rewrite <- (app_nil_r ds) at 1 3.
  now apply digits_then_rest.
Qed.

(** [float] accepts a non-empty run of digits. *)
Lemma py_float_integer (ds : pystr) :
  nonempty ds = true -> forallb (is_digit ud) ds = true ->
  exists q, py_float ud ds = Ok q.
Proof.
  intros Hne Hds. destruct ds as [|c ds]; [discriminate|].
  destruct (digits_only _ Hds) as [Ht Hd].
  simpl in Hds. apply andb_true_iff in Hds. destruct Hds as [Hc _].
  destruct (digit_not_punctuation c Hc) as [Hm _].
  unfold py_float. cbv beta iota. rewrite Hm. cbv beta iota zeta.
  rewrite Ht, Hd. cbn [nonempty]. eauto.
Qed.

(** [float] accepts digits, a point and further digits. *)
Lemma py_float_decimal (ip fp : pystr) :
  nonempty ip = true -> forallb (is_digit ud) ip = true ->
  forallb (is_digit ud) fp = true ->
  exists q, py_float ud (ip ++ chr_dot :: fp) = Ok q.
Proof.
  intros Hne Hip Hfp. destruct ip as [|c ip]; [discriminate|].
  assert (Hdot : is_digit ud chr_dot = false) by reflexivity.
  destruct (digits_then_rest (c :: ip) (chr_dot :: fp) Hip Hdot) as [Ht Hd].
  destruct (digits_only _ Hfp) as [Hft Hfd].
  simpl in Hip. apply andb_true_iff in Hip. destruct Hip as [Hc _].
  destruct (digit_not_punctuation c Hc) as [Hm _].
  unfold py_float.
  change ((c :: ip) ++ chr_dot :: fp) with (c :: (ip ++ chr_dot :: fp)).
  cbv beta iota. rewrite Hm. cbv beta iota zeta.
  change (c :: (ip ++ chr_dot :: fp)) with ((c :: ip) ++ chr_dot :: fp).
  rewrite Ht, Hd, Hft, Hfd. cbn. eauto.
Qed.

(** The token found by the percent pattern is always a number for
    [float]. *)
Lemma decimal_token_parses (s g : pystr) :
  search_decimal_token ud s = Some g -> exists q, py_float ud g = Ok q.
Proof.
  induction s as [|c s IH]; [discriminate|].
  cbn [search_decimal_token].
  destruct (is_digit ud c) eqn:Ec; [|exact IH].
  assert (Hne : nonempty (take_digits ud (c :: s)) = true)
    by (simpl; now rewrite Ec).
  pose proof (take_digits_all (c :: s)) as Hall.
  destruct (drop_digits ud (c :: s)) as [|d frac].
  - intros [= <-]. now apply py_float_integer.
  - destruct ((d =? chr_dot)%N && nonempty (take_digits ud frac)) eqn:E.
    + apply andb_true_iff in E. destruct E as [Ed _].
      apply N.eqb_eq in Ed. subst d. intros [= <-].
      apply py_float_decimal; auto using take_digits_all.
    + intros [= <-]. now apply py_float_integer.
Qed.

(** [percent_to_float] never raises. *)
Lemma percent_to_float_returns (s : option pystr) :
  exists q, percent_to_float ud s = Ok q.
Proof.
  destruct s as [s|]; simpl; [|eauto].
  destruct (search_decimal_token ud (replace (u ",") (u ".") s)) eqn:E.
  - eapply decimal_token_parses. exact E.
  - eauto.
Qed.

(** Only digits, points and minus signs are left when [float] is called by
    [vnd_to_float]. *)
Lemma vnd_normalize_alphabet (s : pystr) :
  forallb (fun c => is_digit ud c || (c =? chr_dot)%N || (c =? chr_minus)%N)
    (vnd_normalize ud s) = true.
Proof.
  unfold vnd_normalize, re_sub_non_numeric.
  apply forallb_forall. intros c Hc. apply filter_In in Hc. apply Hc.
Qed.

(** C9. The currency parser reads "1.234.567" as 1234567 and
    "1.234.567,89" as 1234567.89; the percent parser reads "8,5" and "8.5"
    as 8.5; on an empty or unparsable string both return 0, and neither
    ever raises. *)
Theorem parsers_examples_and_defaults :
  vnd_to_float ud (Some (u "1.234.567")) == 1234567 /\
  vnd_to_float ud (Some (u "1.234.567,89")) == 123456789 # 100 /\
  (exists q, percent_to_float ud (Some (u "8,5")) = Ok q /\ q == 17 # 2) /\
  (exists q, percent_to_float ud (Some (u "8.5")) = Ok q /\ q == 17 # 2) /\
  vnd_to_float ud (Some (u "")) = 0 /\
  percent_to_float ud (Some (u "")) = Ok 0 /\
  (forall s e,
      py_float ud (vnd_normalize ud s) = Raise e ->
      vnd_to_float ud (Some s) = 0) /\
  (forall s,
      search_decimal_token ud (replace (u ",") (u ".") s) = None ->
      percent_to_float ud (Some s) = Ok 0) /\
  (forall s, exists q, percent_to_float ud s = Ok q).
Proof.
  split; [vm_compute; reflexivity|].
  split; [vm_compute; reflexivity|].
  split; [eexists; split; [vm_compute; reflexivity|reflexivity]|].
  split; [eexists; split; [vm_compute; reflexivity|reflexivity]|].
  split; [reflexivity|]. split; [reflexivity|].
  split; [|split].
  - intros s e H. unfold vnd_to_float. rewrite H.
    now destruct (nonempty (vnd_normalize ud s)).
  - intros s H. unfold percent_to_float. now rewrite H.
  - apply percent_to_float_returns.
Qed.

End ParserFacts.

Lemma parsers_examples_and_defaults_witness :
  vnd_to_float arabic_indic_decimal (Some (u "1,2,3")) = 0 /\
  percent_to_float arabic_indic_decimal (Some (u "n/a")) = Ok 0.
Proof.
  pose proof (parsers_examples_and_defaults arabic_indic_decimal) as H.
  destruct H as (_ & _ & _ & _ & _ & _ & Hv & Hp & _).
  split.
  - apply (Hv (u "1,2,3") ValueError). reflexivity.
  - apply (Hp (u "n/a")). reflexivity.
Defined.

(** ** Extraction *)

(** C7. With equity 30,000,000, loan 70,000,000 and total capital need,
    total investment and collateral value all 0, the repair pass sets the
    three of them to 100,000,000. *)
Theorem cross_field_repair_example (d : LoanApplication) :
  von_doi_ung d == 30000000 -> so_tien_vay d == 70000000 ->
  tong_nhu_cau_von d == 0 -> tong_von_dau_tu d == 0 ->
  gia_tri_tsdb d == 0 ->
  let repaired := cross_field_repair d in
  tong_nhu_cau_von repaired == 100000000 /\
  tong_von_dau_tu repaired == 100000000 /\
  gia_tri_tsdb repaired == 100000000.
Proof.
  destruct d as [n1 n2 n3 n4 n5 tc eq loan rate term period inc ts debt
                   profit inv].
  cbn [von_doi_ung so_tien_vay tong_nhu_cau_von tong_von_dau_tu gia_tri_tsdb].
  intros Heq Hloan Htc Hinv Hts.
  assert (Hsum : eq + loan == 100000000)
    by (rewrite Heq, Hloan; reflexivity).
  assert (E1 : Qeq_bool tc 0 = true) by now apply Qeq_bool_iff.
  assert (E2 : Qltb 0 (eq + loan) = true)
    by (apply Qltb_true; rewrite Hsum; reflexivity).
  assert (E3 : Qeq_bool inv 0 = true) by now apply Qeq_bool_iff.
  assert (E4 : Qeq_bool ts 0 = true) by now apply Qeq_bool_iff.
  unfold cross_field_repair.
  cbn [von_doi_ung so_tien_vay tong_nhu_cau_von tong_von_dau_tu gia_tri_tsdb].
  rewrite E1, E2. cbn [andb]. unfold set_tong_nhu_cau_von.
  cbn [von_doi_ung so_tien_vay tong_nhu_cau_von tong_von_dau_tu gia_tri_tsdb].
  rewrite E3. unfold set_tong_von_dau_tu.
  cbn [von_doi_ung so_tien_vay tong_nhu_cau_von tong_von_dau_tu gia_tri_tsdb].
  rewrite E4, E2. cbn [andb]. unfold set_gia_tri_tsdb.
  cbn [von_doi_ung so_tien_vay tong_nhu_cau_von tong_von_dau_tu gia_tri_tsdb].
  auto.
Qed.

Lemma cross_field_repair_example_witness :
  let d := set_so_tien_vay 70000000 (set_von_doi_ung 30000000 FIELD_DEFAULTS) in
  tong_nhu_cau_von (cross_field_repair d) == 100000000 /\
  tong_von_dau_tu (cross_field_repair d) == 100000000 /\
  gia_tri_tsdb (cross_field_repair d) == 100000000.
Proof.
  apply (cross_field_repair_example
           (set_so_tien_vay 70000000
              (set_von_doi_ung 30000000 FIELD_DEFAULTS)));
    reflexivity.
Defined.

Section ExtractionFacts.

Variable ud : char -> option N.
Variable re_search : string -> list re_flag -> pystr -> option Match.

Ltac listed := cbv [In rule_patterns]; repeat first [left; reflexivity | right].

(** When nothing matches, the rules leave [FIELD_DEFAULTS] as it is and the
    repair has nothing to repair. *)
Lemma extract_fields_no_match (full_text : pystr) :
  no_rule_matches re_search full_text ->
  extract_fields ud re_search FIELD_DEFAULTS full_text = Ok FIELD_DEFAULTS.
Proof.
  intro H.
  unfold extract_fields, rule_ten_khach_hang, rule_cccd, rule_noi_cu_tru,
    rule_so_dien_thoai, rule_muc_dich_vay, rule_tong_nhu_cau_von,
    rule_von_doi_ung, rule_so_tien_vay, rule_thoi_gian_vay_thang,
    rule_lai_suat_nam, find_thu_nhap_du_an, find_thu_nhap_luong,
    rule_thu_nhap_thang, rule_gia_tri_tsdb, rule_loi_nhuan_rong_nam.
  rewrite (H ten_pattern1 [IGNORECASE]) by listed.
  rewrite (H ten_pattern2 [IGNORECASE]) by listed.
  rewrite (H cccd_pattern [IGNORECASE]) by listed.
  rewrite (H noi_cu_tru_pattern [IGNORECASE; DOTALL]) by listed.
  rewrite (H sdt_pattern [IGNORECASE]) by listed.
  rewrite (H muc_dich_pattern1 [IGNORECASE]) by listed.
  rewrite (H muc_dich_pattern2 [IGNORECASE; DOTALL]) by listed.
  rewrite (H tnc_pattern [IGNORECASE]) by listed.
  rewrite (H von_du_pattern [IGNORECASE]) by listed.
  rewrite (H so_tien_vay_pattern [IGNORECASE]) by listed.
  rewrite (H thoi_han_pattern [IGNORECASE]) by listed.
  rewrite (H lai_suat_pattern [IGNORECASE]) by listed.
  rewrite (H thu_nhap_du_an_pattern [IGNORECASE]) by listed.
  rewrite (H thu_nhap_luong_pattern [IGNORECASE]) by listed.
  rewrite (H tong_thu_nhap_pattern [IGNORECASE]) by listed.
  rewrite (H tsdb_pattern1 [IGNORECASE; DOTALL]) by listed.
  rewrite (H tsdb_pattern2 [IGNORECASE]) by listed.
  rewrite (H loi_nhuan_pattern [IGNORECASE]) by listed.
  reflexivity.
Qed.



(** Every rule, and the repair, leaves the unassigned keys alone. *)
Create HintDb keeps discriminated.

Lemma keeps_ten_khach_hang t d :
  keeps_defaults d -> keeps_defaults (rule_ten_khach_hang re_search t d).
Proof.
  unfold rule_ten_khach_hang.
  repeat match goal with |- context [re_search ?p ?f t] =>
    destruct (re_search p f t) end; auto.
Qed.

Lemma keeps_cccd t d :
  keeps_defaults d -> keeps_defaults (rule_cccd re_search t d).
Proof. unfold rule_cccd. destruct (re_search _ _ t); auto. Qed.

Lemma keeps_noi_cu_tru t d :
  keeps_defaults d -> keeps_defaults (rule_noi_cu_tru re_search t d).
Proof. unfold rule_noi_cu_tru. destruct (re_search _ _ t); auto. Qed.

Lemma keeps_so_dien_thoai t d :
  keeps_defaults d -> keeps_defaults (rule_so_dien_thoai re_search t d).
Proof. unfold rule_so_dien_thoai. destruct (re_search _ _ t); auto. Qed.

Lemma keeps_muc_dich_vay t d :
  keeps_defaults d -> keeps_defaults (rule_muc_dich_vay re_search t d).
Proof.
  unfold rule_muc_dich_vay.
  repeat match goal with |- context [re_search ?p ?f t] =>
    destruct (re_search p f t) end; auto.
Qed.

Lemma keeps_tong_nhu_cau_von t d :
  keeps_defaults d -> keeps_defaults (rule_tong_nhu_cau_von ud re_search t d).
Proof. unfold rule_tong_nhu_cau_von. destruct (re_search _ _ t); auto. Qed.

Lemma keeps_von_doi_ung t d :
  keeps_defaults d -> keeps_defaults (rule_von_doi_ung ud re_search t d).
Proof. unfold rule_von_doi_ung. destruct (re_search _ _ t); auto. Qed.

Lemma keeps_so_tien_vay t d :
  keeps_defaults d -> keeps_defaults (rule_so_tien_vay ud re_search t d).
Proof. unfold rule_so_tien_vay. destruct (re_search _ _ t); auto. Qed.



Lemma keeps_thu_nhap_thang t a b d :
  keeps_defaults d -> keeps_defaults (rule_thu_nhap_thang ud re_search t a b d).
Proof. unfold rule_thu_nhap_thang. destruct (re_search _ _ t); auto. Qed.

Lemma keeps_gia_tri_tsdb t d :
  keeps_defaults d -> keeps_defaults (rule_gia_tri_tsdb ud re_search t d).
Proof.
  unfold rule_gia_tri_tsdb.
  repeat match goal with |- context [re_search ?p ?f t] =>
    destruct (re_search p f t) end; auto.
Qed.

Lemma keeps_loi_nhuan_rong_nam t a d :
  keeps_defaults d ->
  keeps_defaults (rule_loi_nhuan_rong_nam ud re_search t a d).
Proof.
  unfold rule_loi_nhuan_rong_nam.
  destruct (re_search _ _ t); [auto|]. destruct (Qltb 0 a); auto.
Qed.

Lemma keeps_cross_field_repair d :
  keeps_defaults d -> keeps_defaults (cross_field_repair d).
Proof.
  unfold cross_field_repair.
  repeat match goal with |- context [if ?b then _ else _] =>
    destruct b end; auto.
Qed.

Hint Resolve keeps_ten_khach_hang keeps_cccd keeps_noi_cu_tru
  keeps_so_dien_thoai keeps_muc_dich_vay keeps_tong_nhu_cau_von
  keeps_von_doi_ung keeps_so_tien_vay keeps_thu_nhap_thang
  keeps_gia_tri_tsdb keeps_loi_nhuan_rong_nam keeps_cross_field_repair
  : keeps.


Variable Document : option (list Byte.byte -> result (list pystr)).


(** C6 (amended). When the reader reads the bytes and no rule matches the
    text, the record is [FIELD_DEFAULTS]: every text field is empty and
    every number is zero except the annual rate 10, the term of 12 months
    and the repayment period "Tháng". *)
Theorem no_match_gives_defaults (file_bytes : list Byte.byte)
    (reader : list Byte.byte -> result (list pystr))
    (paragraphs : list pystr) :
  Document = Some reader ->
  reader file_bytes = Ok paragraphs ->
  no_rule_matches re_search (normalize_text paragraphs) ->
  exists r,
    extract_from_docx ud re_search Document file_bytes = Ok r /\
    r = FIELD_DEFAULTS /\
    ten_khach_hang r = [] /\ cccd r = [] /\ noi_cu_tru r = [] /\
    so_dien_thoai r = [] /\ muc_dich_vay r = [] /\
    tong_nhu_cau_von r == 0 /\ von_doi_ung r == 0 /\ so_tien_vay r == 0 /\
    thu_nhap_thang r == 0 /\ gia_tri_tsdb r == 0 /\
    tong_no_hien_tai r == 0 /\ loi_nhuan_rong_nam r == 0 /\
    tong_von_dau_tu r == 0 /\
    lai_suat_nam r == 10 /\ thoi_gian_vay_thang r = 12%Z /\
    ky_han_tra r = u "Tháng".
Proof.
  intros HD Hread Hnone. exists FIELD_DEFAULTS.
  split.
  - unfold extract_from_docx. rewrite HD, Hread. cbn [bind].
    now apply extract_fields_no_match.
  - repeat split; reflexivity.
Qed.

End ExtractionFacts.

(** ** Concrete instances *)


Lemma sample_search_finds_nothing (s : pystr) :
  pystr_eqb s term_text = false -> pystr_eqb s funding_text = false ->
  no_rule_matches sample_search s.
Proof.
  intros H1 H2 p fl _. unfold sample_search, sample_matches.
  cbn [find fst snd]. rewrite H1, H2. now rewrite !andb_false_r.
Qed.

(** The term is read from a document that states it. *)
Example extract_term_24 :
  exists r,
    extract_from_docx arabic_indic_decimal sample_search
      (Some (reader_of [u "  Thời hạn vay: 24 tháng  "; u ""])) empty_zip
    = Ok r /\
    thoi_gian_vay_thang r = 24%Z /\ lai_suat_nam r == 10.
Proof.
  eexists. split; [vm_compute; reflexivity|]. split; reflexivity.
Qed.

(** Equity and loan amount are read, and the repair fills in the total
    capital need, the total investment and the collateral value. *)
Example extract_and_repair :
  exists r,
    extract_from_docx arabic_indic_decimal sample_search
      (Some (reader_of
               [u "Vốn đối ứng: 30.000.000 đồng";
                u "Vốn vay Agribank số tiền: 70.000.000 đồng"])) empty_zip
    = Ok r /\
    von_doi_ung r == 30000000 /\ so_tien_vay r == 70000000 /\
    tong_nhu_cau_von r == 100000000 /\ tong_von_dau_tu r == 100000000 /\
    gia_tri_tsdb r == 100000000.
Proof.
  eexists. split; [vm_compute; reflexivity|]. repeat split.
Qed.



Lemma no_match_gives_defaults_witness :
  exists r,
    extract_from_docx arabic_indic_decimal sample_search
      (Some (reader_of [u "Kính gửi: Agribank"])) empty_zip = Ok r /\
    r = FIELD_DEFAULTS /\
    ten_khach_hang r = [] /\ cccd r = [] /\ noi_cu_tru r = [] /\
    so_dien_thoai r = [] /\ muc_dich_vay r = [] /\
    tong_nhu_cau_von r == 0 /\ von_doi_ung r == 0 /\ so_tien_vay r == 0 /\
    thu_nhap_thang r == 0 /\ gia_tri_tsdb r == 0 /\
    tong_no_hien_tai r == 0 /\ loi_nhuan_rong_nam r == 0 /\
    tong_von_dau_tu r == 0 /\
    lai_suat_nam r == 10 /\ thoi_gian_vay_thang r = 12%Z /\
    ky_han_tra r = u "Tháng".
Proof.
  apply (no_match_gives_defaults arabic_indic_decimal sample_search
           (Some (reader_of [u "Kính gửi: Agribank"])) empty_zip
           (reader_of [u "Kính gửi: Agribank"]) [u "Kính gửi: Agribank"]).
  - reflexivity.
  - reflexivity.
  - apply sample_search_finds_nothing; reflexivity.
Defined.

(** C6 as stated fails: no rule matches this document, yet the annual rate
    of the record is 10 and its term 12, not 0. *)
Lemma no_match_keeps_default_rate_and_term :
  no_rule_matches sample_search (normalize_text [u "Kính gửi: Agribank"]) /\
  exists r,
    extract_from_docx arabic_indic_decimal sample_search
      (Some (reader_of [u "Kính gửi: Agribank"])) empty_zip = Ok r /\
    lai_suat_nam r == 10 /\ ~ lai_suat_nam r == 0 /\
    thoi_gian_vay_thang r = 12%Z /\ thoi_gian_vay_thang r <> 0%Z /\
    ky_han_tra r <> [].
Proof.
  split; [apply sample_search_finds_nothing; reflexivity|].
  eexists. split; [vm_compute; reflexivity|].
  repeat split; try reflexivity; discriminate.
Qed.

Lemma sample_payment :
  payment_of sample_application
  = Ok (70000000 * (10 / 100 / 12) * (1 + 10 / 100 / 12) ^ 12
        / ((1 + 10 / 100 / 12) ^ 12 - 1)).
Proof.
  apply (annuity_payment_annuity 70000000 10 12); reflexivity.
Qed.



Lemma plan_consistency_flag_witness :
  let d := set_von_doi_ung 30500000 sample_application in
  exists res,
    compute_metrics d = Ok res /\ Phuong_an_hop_ly res = true.
Proof.
  intro d.
  destruct (plan_consistency_flag d _ sample_payment)
    as (res & H1 & _ & H3 & _).
  exists res. split; [exact H1|]. apply H3; reflexivity.
Defined.


(** * Further properties *)

(** ** Strings: replacing and looking for one character *)

Lemma replace_char_map (a b : char) (s : pystr) :
  replace [a] [b] s = map (subst_char a b) s.
Proof.
  unfold replace. induction s as [|c s IH]; [reflexivity|].
  cbn [replace_aux is_prefix List.length pred map]. unfold subst_char at 1.
  rewrite andb_true_r, N.eqb_sym.
  destruct (c =? a)%N; cbn [app]; now rewrite IH.
Qed.

Lemma replace_char_delete (a : char) (s : pystr) :
  replace [a] [] s = filter (fun c => negb (c =? a)%N) s.
Proof.
  unfold replace. induction s as [|c s IH]; [reflexivity|].
  cbn [replace_aux is_prefix List.length pred filter].
  rewrite andb_true_r, N.eqb_sym.
  destruct (c =? a)%N; cbn [app negb]; now rewrite IH.
Qed.

Lemma contains_char (a : char) (s : pystr) :
  contains [a] s = existsb (fun c => (c =? a)%N) s.
Proof.
  induction s as [|c s IH]; [reflexivity|].
  cbn [contains is_prefix existsb].
  now rewrite andb_true_r, N.eqb_sym, IH.
Qed.

(** A token whose first character does not occur is not replaced. *)
Lemma replace_absent (h : char) (t new s : pystr) :
  forallb (fun c => negb (c =? h)%N) s = true ->
  replace (h :: t) new s = s.
Proof.
  unfold replace. induction s as [|c s IH]; [reflexivity|].
  cbn [forallb replace_aux is_prefix]. intro H.
  apply andb_true_iff in H. destruct H as [Hc Hs].
  apply negb_true_iff in Hc. rewrite N.eqb_sym in Hc. rewrite Hc.
  cbn [andb]. now rewrite IH.
Qed.

(** ** Decimal digits *)

Lemma digit_char_ascii (d : N) : (d < 10)%N -> is_ascii_digit (digit_char d) = true.
Proof.
  intro H. unfold is_ascii_digit, digit_char.
  apply andb_true_iff. split; apply N.leb_le; lia.
Qed.

Lemma digits_rev_ascii (fuel : nat) : forall n,
  forallb is_ascii_digit (digits_rev fuel n) = true.
Proof.
  induction fuel as [|fuel IH]; intro n; [reflexivity|].
  cbn [digits_rev]. destruct (N.ltb_spec n 10) as [H|H]; cbn [forallb].
  - now rewrite digit_char_ascii.
  - rewrite digit_char_ascii, IH; [reflexivity|].
    apply N.mod_lt. lia.
Qed.

Lemma digits_rev_value (fuel : nat) : forall n,
  (n < 2 ^ N.of_nat fuel)%N -> lsf_value (digits_rev fuel n) = n.
Proof.
  induction fuel as [|fuel IH]; intros n Hn.
  - cbn in Hn. cbn. lia.
  - cbn [digits_rev]. destruct (N.ltb_spec n 10) as [H|H]; cbn [lsf_value].
    + unfold digit_char. lia.
    + rewrite IH.
      * unfold digit_char.
        rewrite (N.add_comm 48), N.add_sub, N.add_comm.
        symmetry. apply N.div_mod. discriminate.
      * rewrite Nat2N.inj_succ, N.pow_succ_r' in Hn.
        apply N.Div0.div_lt_upper_bound.
        set (p := (2 ^ N.of_nat fuel)%N) in *. lia.
Qed.

Lemma digits_rev_nonempty (fuel : nat) (n : N) :
  nonempty (digits_rev (S fuel) n) = true.
Proof. cbn [digits_rev]. now destruct (n <? 10)%N. Qed.

Lemma digits_rev_length (fuel : nat) : forall n k,
  (n < 10 ^ N.of_nat (S k))%N ->
  (List.length (digits_rev fuel n) <= S k)%nat.
Proof.
  induction fuel as [|fuel IH]; intros n k Hn; [cbn; lia|].
  cbn [digits_rev]. destruct (N.ltb_spec n 10) as [H|H]; [cbn; lia|].
  cbn [List.length].
  destruct k as [|k].
  - change (10 ^ N.of_nat 1)%N with 10%N in Hn. lia.
  - apply le_n_S. apply IH.
    rewrite Nat2N.inj_succ, N.pow_succ_r' in Hn.
    apply N.Div0.div_lt_upper_bound. exact Hn.
Qed.

Lemma enough_fuel (n : N) : (n < 2 ^ N.of_nat (S (N.to_nat (N.log2 n))))%N.
Proof.
  rewrite Nat2N.inj_succ, N2Nat.id.
  destruct (N.eq_dec n 0) as [->|Hn]; [reflexivity|].
  apply N.log2_spec. lia.
Qed.

Lemma decimal_digits_ascii (n : N) :
  forallb is_ascii_digit (decimal_digits n) = true.
Proof.
  unfold decimal_digits. rewrite forallb_forall. intros c Hc.
  apply in_rev in Hc.
  pose proof (digits_rev_ascii (S (N.to_nat (N.log2 n))) n) as H.
  rewrite forallb_forall in H. now apply H.
Qed.

Lemma decimal_digits_nonempty (n : N) : nonempty (decimal_digits n) = true.
Proof.
  unfold decimal_digits.
  pose proof (digits_rev_nonempty (N.to_nat (N.log2 n)) n) as H.
  destruct (digits_rev (S (N.to_nat (N.log2 n))) n) as [|d l]; [discriminate|].
  cbn [rev]. now destruct (rev l).
Qed.

Lemma decimal_digits_length (n : N) (k : nat) :
  (n < 10 ^ N.of_nat (S k))%N -> (List.length (decimal_digits n) <= S k)%nat.
Proof.
  intro H. unfold decimal_digits. rewrite length_rev.
  now apply digits_rev_length.
Qed.

Section DigitValues.

Variable ud : char -> option N.

Lemma ascii_digit_value (c : char) :
  is_ascii_digit c = true -> decimal_digit ud c = Some (c - 48)%N.
Proof. unfold is_ascii_digit, decimal_digit. now intros ->. Qed.

Lemma ascii_digit_is_digit (c : char) :
  is_ascii_digit c = true -> is_digit ud c = true.
Proof. intro H. unfold is_digit. now rewrite ascii_digit_value. Qed.

Lemma ascii_digits_are_digits (s : pystr) :
  forallb is_ascii_digit s = true -> forallb (is_digit ud) s = true.
Proof.
  rewrite !forallb_forall. intros H c Hc. apply ascii_digit_is_digit. auto.
Qed.

Lemma digits_value_app (s t : pystr) : forall acc,
  forallb (is_digit ud) s = true ->
  digits_value ud acc (s ++ t) = digits_value ud (digits_value ud acc s) t.
Proof.
  induction s as [|c s IH]; intros acc H; [reflexivity|].
  cbn [forallb] in H. apply andb_true_iff in H. destruct H as [Hc Hs].
  cbn [app digits_value]. unfold is_digit in Hc.
  destruct (decimal_digit ud c); [now apply IH|discriminate].
Qed.

(** Digits after an accumulator: the accumulator is shifted left. *)
Lemma digits_value_shift (s : pystr) : forall acc,
  forallb (is_digit ud) s = true ->
  digits_value ud acc s
  = (acc * 10 ^ Z.of_nat (List.length s) + digits_value ud 0 s)%Z.
Proof.
  induction s as [|c s IH]; intros acc H.
  - cbn. lia.
  - cbn [forallb] in H. apply andb_true_iff in H. destruct H as [Hc Hs].
    cbn [digits_value List.length]. unfold is_digit in Hc.
    destruct (decimal_digit ud c) as [d|]; [|discriminate].
    rewrite (IH (acc * 10 + Z.of_N d)%Z Hs), (IH (0 * 10 + Z.of_N d)%Z Hs).
    rewrite Nat2Z.inj_succ, Z.pow_succ_r by lia. lia.
Qed.

Lemma digits_value_rev (l : pystr) :
  forallb is_ascii_digit l = true ->
  digits_value ud 0 (rev l) = Z.of_N (lsf_value l).
Proof.
  induction l as [|d l IH]; intro H; [reflexivity|].
  cbn [forallb] in H. apply andb_true_iff in H. destruct H as [Hd Hl].
  cbn [rev lsf_value]. rewrite digits_value_app.
  - rewrite (IH Hl). cbn [digits_value]. rewrite (ascii_digit_value d Hd).
    unfold is_ascii_digit in Hd. apply andb_true_iff in Hd.
    destruct Hd as [Hd _]. apply N.leb_le in Hd. lia.
  - apply ascii_digits_are_digits. rewrite forallb_forall in *.
    intros c Hc. apply Hl. now apply in_rev.
Qed.

(** Writing a number and reading it back. *)
Lemma decimal_digits_value (n : N) :
  digits_value ud 0 (decimal_digits n) = Z.of_N n.
Proof.
  unfold decimal_digits. rewrite digits_value_rev by apply digits_rev_ascii.
  now rewrite digits_rev_value by apply enough_fuel.
Qed.

End DigitValues.

(** ** Rounding is symmetric *)

Lemma Qfloor_unique (x : Q) (z : Z) :
  inject_Z z <= x < inject_Z z + 1 -> Qfloor x = z.
Proof.
  intros [Hlo Hhi].
  pose proof (Qfloor_le x) as Fl. pose proof (Qlt_floor x) as Fh.
  rewrite inject_Z_plus in Fh. change (inject_Z 1) with 1 in Fh.
  assert (H1 : inject_Z z < inject_Z (Qfloor x + 1)).
  { rewrite inject_Z_plus. change (inject_Z 1) with 1. lra. }
  assert (H2 : inject_Z (Qfloor x) < inject_Z (z + 1)).
  { rewrite inject_Z_plus. change (inject_Z 1) with 1. lra. }
  rewrite <- Zlt_Qlt in H1, H2. lia.
Qed.

Lemma even_of_mirror (f : Z) : Z.even (- f - 1) = negb (Z.even f).
Proof.
  replace (- f - 1)%Z with (- (f + 1))%Z by lia.
  rewrite Z.even_opp, Z.even_add. now destruct (Z.even f).
Qed.

Lemma round_half_even_opp (x : Q) :
  round_half_even (- x) = (- round_half_even x)%Z.
Proof.
  pose proof (Qfloor_le x) as Fl. pose proof (Qlt_floor x) as Fh.
  rewrite inject_Z_plus in Fh. change (inject_Z 1) with 1 in Fh.
  destruct (Qeq_dec x (inject_Z (Qfloor x))) as [E|NE].
  - assert (F : Qfloor (- x) = (- Qfloor x)%Z).
    { apply Qfloor_unique. rewrite inject_Z_opp. lra. }
    unfold round_half_even. rewrite F.
    assert (C1 : Qcompare (x - inject_Z (Qfloor x)) (1 # 2) = Lt).
    { apply Qlt_alt. setoid_replace (x - inject_Z (Qfloor x)) with 0
        by (rewrite <- E; ring). reflexivity. }
    assert (C2 : Qcompare (- x - inject_Z (- Qfloor x)) (1 # 2) = Lt).
    { apply Qlt_alt. rewrite inject_Z_opp.
      setoid_replace (- x - - inject_Z (Qfloor x)) with 0
        by (rewrite <- E; ring). reflexivity. }
    now rewrite C1, C2.
  - assert (F : Qfloor (- x) = (- Qfloor x - 1)%Z).
    { apply Qfloor_unique. unfold Z.sub.
      rewrite inject_Z_plus, inject_Z_opp, inject_Z_opp.
      change (inject_Z 1) with 1.
      assert (inject_Z (Qfloor x) < x).
      { apply Qle_lteq in Fl. destruct Fl as [Fl|Fl]; [exact Fl|].
        exfalso. apply NE. now symmetry. }
      lra. }
    assert (I : inject_Z (- Qfloor x - 1) == - inject_Z (Qfloor x) - 1).
    { unfold Z.sub. rewrite inject_Z_plus, !inject_Z_opp. reflexivity. }
    unfold round_half_even. rewrite F, even_of_mirror.
    destruct (Qcompare (x - inject_Z (Qfloor x)) (1 # 2)) eqn:C1;
      destruct (Qcompare (- x - inject_Z (- Qfloor x - 1)) (1 # 2)) eqn:C2;
      qcompare_facts; rewrite ?I in C2;
      try (destruct (Z.even (Qfloor x)); cbn [negb]); try lia;
      exfalso; lra.
Qed.

Lemma round_half_even_nonneg (x : Q) : 0 <= x -> (0 <= round_half_even x)%Z.
Proof.
  intro H. rewrite <- (round_half_even_inject 0).
  now apply round_half_even_mono.
Qed.

(** The rounded magnitude with the sign put back is the rounded number. *)
Lemma round_half_even_magnitude (x : Q) :
  (if Qltb x 0 then - inject_Z (round_half_even (Qabs x))
   else inject_Z (round_half_even (Qabs x)))
  == inject_Z (round_half_even x).
Proof.
  destruct (Qltb x 0) eqn:E.
  - apply Qltb_true in E.
    assert (A : Qabs x == - x) by (apply Qabs_neg; lra).
    rewrite (round_half_even_comp _ _ A), round_half_even_opp, inject_Z_opp.
    ring.
  - apply Qltb_false in E.
    assert (A : Qabs x == x) by now apply Qabs_pos.
    now rewrite (round_half_even_comp _ _ A).
Qed.

(** ** Grouped digits *)

Lemma map_fixed (f : char -> char) (l : pystr) :
  (forall c, In c l -> f c = c) -> map f l = l.
Proof.
  intro H. rewrite <- (map_id l) at 2. now apply map_ext_in.
Qed.

(** Rewriting the characters with [f] and keeping those that satisfy [p]
    gives the digits back when the separator is dropped and the digits are
    kept as they are. *)
Lemma group3_rev_erased (sep : char) (f : char -> char) (p : char -> bool)
    (ds : pystr) : forall k,
  p (f sep) = false ->
  (forall d, In d ds -> f d = d /\ p d = true) ->
  filter p (map f (group3_rev sep k ds)) = ds.
Proof.
  intros k Hsep. revert k. induction ds as [|d ds IH]; intros k H;
    [reflexivity|].
  destruct (H d (or_introl eq_refl)) as [Hf Hp].
  assert (Hds : forall d', In d' ds -> f d' = d' /\ p d' = true)
    by (intros d' Hd'; apply H; now right).
  destruct k as [|k]; cbn [group3_rev map filter];
    rewrite ?Hsep, Hf, Hp, IH; auto.
Qed.

Lemma group3_erased (sep : char) (f : char -> char) (p : char -> bool)
    (ds : pystr) :
  p (f sep) = false ->
  (forall d, In d ds -> f d = d /\ p d = true) ->
  filter p (map f (group3 sep ds)) = ds.
Proof.
  intros Hsep H. unfold group3.
  rewrite map_rev, filter_rev, group3_rev_erased; auto using rev_involutive.
  intros d Hd. apply H. now apply in_rev.
Qed.

(** Grouping adds nothing but separators. *)
Lemma group3_chars (sep : char) (ds : pystr) (c : char) :
  In c (group3 sep ds) -> c = sep \/ In c ds.
Proof.
  unfold group3. intro H. apply in_rev in H.
  assert (G : forall k l, In c (group3_rev sep k l) -> c = sep \/ In c l).
  { intros k l. revert k. induction l as [|d l IH]; intros k Hc; [easy|].
    destruct k as [|k]; cbn [group3_rev In] in Hc.
    - destruct Hc as [Hc|[Hc|Hc]]; [now left|right; now left|].
      destruct (IH _ Hc); [now left|right; now right].
    - destruct Hc as [Hc|Hc]; [right; now left|].
      destruct (IH _ Hc); [now left|right; now right]. }
  destruct (G _ _ H) as [E|E]; [now left|right; now apply in_rev].
Qed.

Lemma ascii_digit_range (c : char) :
  is_ascii_digit c = true -> (48 <= c <= 57)%N.
Proof.
  unfold is_ascii_digit. intro H. apply andb_true_iff in H.
  destruct H as [H1 H2]. apply N.leb_le in H1, H2. lia.
Qed.

Lemma ascii_digit_in (ds : pystr) (c : char) :
  forallb is_ascii_digit ds = true -> In c ds -> (48 <= c <= 57)%N.
Proof.
  intros H Hc. rewrite forallb_forall in H. apply ascii_digit_range. auto.
Qed.

Lemma not_eqb (c k : char) : c <> k -> (c =? k)%N = false.
Proof. apply N.eqb_neq. Qed.

(** ** Plainly written numbers *)

Section PlainNumbers.

Variable ud : char -> option N.

Lemma numeric_ascii_cases (c : char) :
  is_numeric_ascii c = true ->
  (48 <= c <= 57)%N \/ c = chr_minus \/ c = chr_dot.
Proof.
  unfold is_numeric_ascii. intro H.
  apply orb_true_iff in H. destruct H as [H|H].
  - apply orb_true_iff in H. destruct H as [H|H].
    + left. now apply ascii_digit_range.
    + right. left. now apply N.eqb_eq.
  - right. right. now apply N.eqb_eq.
Qed.

Lemma numeric_ascii_kept (c : char) :
  is_numeric_ascii c = true ->
  (is_digit ud c || (c =? chr_dot)%N || (c =? chr_minus)%N) = true.
Proof.
  unfold is_numeric_ascii. intro H.
  apply orb_true_iff in H. destruct H as [H|H].
  - apply orb_true_iff in H. destruct H as [H|H].
    + now rewrite (ascii_digit_is_digit ud c H).
    + rewrite H. now rewrite !orb_true_r.
  - rewrite H. now rewrite orb_true_r.
Qed.

Lemma no_such_char (k : char) (t : pystr) :
  forallb is_numeric_ascii t = true ->
  (k < 45 \/ 57 < k \/ k = 47)%N ->
  forallb (fun c => negb (c =? k)%N) t = true.
Proof.
  intros H Hk. rewrite forallb_forall in *. intros c Hc.
  apply negb_true_iff, N.eqb_neq.
  destruct (numeric_ascii_cases c (H c Hc)) as [R|[->| ->]];
    unfold chr_minus, chr_dot; lia.
Qed.

(** On a plainly written number the currency marks are not found and the
    final filter keeps everything. *)
Lemma currency_marks_absent (t : pystr) :
  forallb is_numeric_ascii t = true ->
  re_sub_non_numeric ud
    (replace (u " ") (u "")
       (replace (u "₫") (u "")
          (replace (u "vnđ") (u "")
             (replace (u "VND") (u "") (replace (u "đ") (u "") t)))))
  = t.
Proof.
  intro H.
  change (u "đ") with [273%N]. change (u "VND") with [86; 78; 68]%N.
  change (u "vnđ") with [118; 110; 273]%N. change (u "₫") with [8363%N].
  change (u " ") with [32%N]. change (u "") with (@nil char).
  rewrite (replace_absent _ _ _ t)
    by (apply no_such_char; [exact H|lia]).
  rewrite (replace_absent _ _ _ t)
    by (apply no_such_char; [exact H|lia]).
  rewrite (replace_absent _ _ _ t)
    by (apply no_such_char; [exact H|lia]).
  rewrite (replace_absent _ _ _ t)
    by (apply no_such_char; [exact H|lia]).
  rewrite (replace_absent _ _ _ t)
    by (apply no_such_char; [exact H|lia]).
  unfold re_sub_non_numeric. apply forallb_filter_id.
  rewrite forallb_forall in *. intros c Hc. apply numeric_ascii_kept. auto.
Qed.

Lemma no_comma (t : pystr) :
  forallb is_numeric_ascii t = true -> contains (u ",") t = false.
Proof.
  intro H. change (u ",") with [44%N]. rewrite contains_char.
  apply not_true_is_false. intro E. apply existsb_exists in E.
  destruct E as (c & Hc & Ec). apply N.eqb_eq in Ec. subst c.
  rewrite forallb_forall in H. specialize (H _ Hc). discriminate H.
Qed.

(** [vnd_normalize] on a string without comma whose characters are all
    plain: the points go and nothing else changes. *)
Lemma vnd_normalize_no_comma (s : pystr) :
  forallb is_numeric_ascii s = true ->
  vnd_normalize ud s = filter (fun c => negb (c =? chr_dot)%N) s.
Proof.
  intro H. unfold vnd_normalize. rewrite (no_comma s H). cbn [andb].
  change (u ".") with [chr_dot]. change (u "") with (@nil char).
  rewrite replace_char_delete. apply currency_marks_absent.
  rewrite forallb_forall in *. intros c Hc. apply filter_In in Hc.
  apply H, Hc.
Qed.

(** With a comma and otherwise plain characters: the points go and the
    commas become points. *)
Lemma vnd_normalize_comma (s : pystr) :
  contains (u ",") s = true ->
  forallb (fun c => is_numeric_ascii c || (c =? chr_comma)%N) s = true ->
  vnd_normalize ud s
  = map (subst_char chr_comma chr_dot)
      (filter (fun c => negb (c =? chr_dot)%N) s).
Proof.
  intros Hc H. unfold vnd_normalize. rewrite Hc. cbn [andb].
  assert (E : (if contains (u ".") s
               then replace (u ",") (u ".") (replace (u ".") (u "") s)
               else if negb (contains (u ".") s)
                    then replace (u ",") (u ".") (replace (u ".") (u "") s)
                    else replace (u ".") (u "") s)
              = replace (u ",") (u ".") (replace (u ".") (u "") s))
    by now destruct (contains (u ".") s).
  rewrite E. clear E.
  change (u ".") with [chr_dot]. change (u ",") with [chr_comma].
  change (u "") with (@nil char).
  rewrite replace_char_delete, replace_char_map.
  apply currency_marks_absent.
  rewrite forallb_forall in *. intros c Hin. apply in_map_iff in Hin.
  destruct Hin as (c0 & <- & Hin). apply filter_In in Hin.
  destruct Hin as [Hin Hdot]. specialize (H _ Hin).
  unfold subst_char.
  destruct (c0 =? chr_comma)%N eqn:Ecomma; [reflexivity|].
  now rewrite orb_false_r in H.
Qed.

(** What [float] reads from a signed run of digits. *)
Lemma py_float_signed_integer (negative : bool) (ds : pystr) :
  nonempty ds = true -> forallb is_ascii_digit ds = true ->
  py_float ud (sign_prefix negative ++ ds)
  = Ok (signed negative (inject_Z (digits_value ud 0 ds))).
Proof.
  intros Hne Hds.
  pose proof (ascii_digits_are_digits ud ds Hds) as Hd.
  destruct (digits_only ud ds Hd) as [Ht Hr].
  destruct ds as [|c ds]; [discriminate|].
  assert (Hc : is_digit ud c = true)
    by (cbn [forallb] in Hd; now apply andb_true_iff in Hd).
  destruct (digit_not_punctuation ud c Hc) as [Hm _].
  unfold py_float. destruct negative; cbn [sign_prefix app].
  - change (chr_minus =? chr_minus)%N with true. cbv beta iota zeta.
    rewrite Ht, Hr. reflexivity.
  - cbv beta iota. rewrite Hm. cbv beta iota zeta. rewrite Ht, Hr.
    reflexivity.
Qed.

(** What [float] reads from signed digits, a point and further digits. *)
Lemma py_float_signed_decimal (negative : bool) (ip fp : pystr) :
  nonempty ip = true -> forallb is_ascii_digit ip = true ->
  forallb is_ascii_digit fp = true ->
  py_float ud (sign_prefix negative ++ ip ++ chr_dot :: fp)
  = Ok (signed negative
          (inject_Z (digits_value ud 0 (ip ++ fp))
           / inject_Z (10 ^ Z.of_nat (List.length fp)))).
Proof.
  intros Hne Hip Hfp.
  pose proof (ascii_digits_are_digits ud ip Hip) as Hdi.
  pose proof (ascii_digits_are_digits ud fp Hfp) as Hdf.
  assert (Hdot : is_digit ud chr_dot = false) by reflexivity.
  destruct (digits_then_rest ud ip (chr_dot :: fp) Hdi Hdot) as [Ht Hr].
  destruct (digits_only ud fp Hdf) as [Hft Hfr].
  destruct ip as [|c ip]; [discriminate|].
  assert (Hc : is_digit ud c = true)
    by (cbn [forallb] in Hdi; now apply andb_true_iff in Hdi).
  destruct (digit_not_punctuation ud c Hc) as [Hm _].
  unfold py_float. destruct negative; cbn [sign_prefix app].
  - change (chr_minus =? chr_minus)%N with true. cbv beta iota zeta.
    change (c :: ip ++ chr_dot :: fp) with ((c :: ip) ++ chr_dot :: fp).
    rewrite Ht, Hr, Hft, Hfr. reflexivity.
  - cbv beta iota. rewrite Hm. cbv beta iota zeta.
    change (c :: ip ++ chr_dot :: fp) with ((c :: ip) ++ chr_dot :: fp).
    rewrite Ht, Hr, Hft, Hfr. reflexivity.
Qed.

End PlainNumbers.

(** ** The shape of a formatted number *)

Lemma sign_prefix_numeric (b : bool) :
  forallb is_numeric_ascii (sign_prefix b) = true.
Proof. now destruct b. Qed.

Lemma ascii_digits_numeric (ds : pystr) :
  forallb is_ascii_digit ds = true -> forallb is_numeric_ascii ds = true.
Proof.
  rewrite !forallb_forall. intros H c Hc. unfold is_numeric_ascii.
  now rewrite (H c Hc).
Qed.

Lemma rounded_magnitude (x : Q) (scale : N) :
  Z.of_N (Z.to_N (round_half_even (Qabs x * inject_Z (Z.of_N scale))))
  = round_half_even (Qabs x * inject_Z (Z.of_N scale)).
Proof.
  apply Z2N.id. apply round_half_even_nonneg.
  apply Qmult_le_0_compat; [apply Qabs_nonneg|].
  change 0 with (inject_Z 0). rewrite <- Zle_Qle. lia.
Qed.

(** Without decimals: the sign and the digits of the rounded magnitude. *)
Lemma format_fixed_0 (grouping : bool) (x : Q) :
  let ds := decimal_digits (Z.to_N (round_half_even (Qabs x))) in
  format_fixed grouping 0 x
  = sign_prefix (Qltb x 0)
    ++ (if grouping then group3 chr_comma ds else ds).
Proof.
  cbv zeta. unfold format_fixed.
  change (10 ^ N.of_nat 0)%N with 1%N. rewrite N.div_1_r, app_nil_r.
  assert (E : Qabs x * inject_Z (Z.of_N 1) == Qabs x)
    by (change (inject_Z (Z.of_N 1)) with 1; ring).
  now rewrite (round_half_even_comp _ _ E).
Qed.

Section FormattedValues.

Variable ud : char -> option N.

Lemma zeros_value (k : nat) (s : pystr) :
  digits_value ud 0 (repeat (digit_char 0) k ++ s) = digits_value ud 0 s.
Proof.
  induction k as [|k IH]; [reflexivity|].
  cbn [repeat app digits_value].
  change (decimal_digit ud (digit_char 0)) with (Some 0%N). exact IH.
Qed.

(** With two decimals: the sign, the integer digits, a point and two
    digits, which together write the magnitude in hundredths. *)
Lemma format_fixed_2 (grouping : bool) (x : Q) :
  exists ip fp,
    format_fixed grouping 2 x
    = sign_prefix (Qltb x 0)
      ++ (if grouping then group3 chr_comma ip else ip)
      ++ chr_dot :: fp /\
    nonempty ip = true /\ forallb is_ascii_digit ip = true /\
    forallb is_ascii_digit fp = true /\ List.length fp = 2%nat /\
    digits_value ud 0 (ip ++ fp) = round_half_even (Qabs x * 100).
Proof.
  unfold format_fixed. change (10 ^ N.of_nat 2)%N with 100%N.
  set (n := Z.to_N (round_half_even (Qabs x * inject_Z (Z.of_N 100)))).
  set (fd := decimal_digits (n mod 100)).
  assert (Hlen : (List.length fd <= 2)%nat).
  { apply decimal_digits_length. change (10 ^ N.of_nat 2)%N with 100%N.
    apply N.mod_lt. discriminate. }
  assert (Hfd : forallb is_ascii_digit fd = true)
    by apply decimal_digits_ascii.
  assert (Hpad : forallb is_ascii_digit
                   (repeat (digit_char 0) (2 - List.length fd) ++ fd) = true).
  { rewrite forallb_app, Hfd, andb_true_r. apply forallb_forall.
    intros c Hc. apply repeat_spec in Hc. now subst c. }
  eexists (decimal_digits (n / 100)), _. split; [reflexivity|].
  split; [apply decimal_digits_nonempty|].
  split; [apply decimal_digits_ascii|]. split; [exact Hpad|].
  split; [rewrite length_app, repeat_length; lia|].
  rewrite digits_value_app
    by (apply ascii_digits_are_digits, decimal_digits_ascii).
  rewrite digits_value_shift by now apply ascii_digits_are_digits.
  rewrite zeros_value, decimal_digits_value.
  unfold fd at 3. rewrite decimal_digits_value.
  rewrite length_app, repeat_length.
  replace (2 - List.length fd + List.length fd)%nat with 2%nat by lia.
  change (10 ^ Z.of_nat 2)%Z with 100%Z.
  change (Qabs x * 100) with (Qabs x * inject_Z (Z.of_N 100)).
  rewrite <- (rounded_magnitude x 100). fold n.
  rewrite N2Z.inj_div, N2Z.inj_mod. change (Z.of_N 100) with 100%Z.
  pose proof (Z.div_mod (Z.of_N n) 100 ltac:(discriminate)). lia.
Qed.

End FormattedValues.

(** ** Formatting, then parsing *)

Lemma signed_round_hundredths (x : Q) :
  signed (Qltb x 0)
    (inject_Z (round_half_even (Qabs x * 100)) / inject_Z (10 ^ Z.of_nat 2))
  == py_round x 2.
Proof.
  unfold py_round. change (inject_Z (10 ^ Z.of_N 2)) with 100.
  change (inject_Z (10 ^ Z.of_nat 2)) with 100.
  pose proof (round_half_even_magnitude (x * 100)) as M.
  assert (A : Qabs (x * 100) == Qabs x * 100)
    by (rewrite Qabs_Qmult; reflexivity).
  rewrite (round_half_even_comp _ _ A) in M.
  assert (S : Qltb (x * 100) 0 = Qltb x 0).
  { destruct (Qltb x 0) eqn:E.
    - apply Qltb_true in E. apply Qltb_true. lra.
    - apply Qltb_false in E. apply Qltb_false. lra. }
  rewrite S in M. rewrite <- M. unfold signed.
  destruct (Qltb x 0); field.
Qed.

Lemma Qabs_signed (b : bool) (v : Q) : 0 <= v -> Qabs (signed b v) == v.
Proof.
  intro H. destruct b; cbn [signed].
  - rewrite Qabs_opp. now apply Qabs_pos.
  - now apply Qabs_pos.
Qed.

Section RoundTrips.

Variable ud : char -> option N.

Lemma digits_keep_apart (ds : pystr) (f : char -> char) (p : char -> bool) :
  forallb is_ascii_digit ds = true ->
  (forall c, (48 <= c <= 57)%N -> f c = c /\ p c = true) ->
  forall d, In d ds -> f d = d /\ p d = true.
Proof.
  intros H Hf d Hd. apply Hf. now apply (ascii_digit_in ds).
Qed.

Lemma filter_sign_prefix (p : char -> bool) (b : bool) :
  p chr_minus = true -> filter p (sign_prefix b) = sign_prefix b.
Proof. intro H. destruct b; cbn [sign_prefix filter]; now rewrite ?H. Qed.

Lemma map_sign_prefix (f : char -> char) (b : bool) :
  f chr_minus = chr_minus -> map f (sign_prefix b) = sign_prefix b.
Proof. intro H. destruct b; cbn [sign_prefix map]; now rewrite ?H. Qed.

Lemma sign_prefix_nonempty (b : bool) (ds t : pystr) :
  nonempty ds = true -> nonempty (sign_prefix b ++ ds ++ t) = true.
Proof. destruct b; [reflexivity|]. now destruct ds. Qed.

(** The currency parser on a sign, digits grouped with points. *)
Lemma vnd_to_float_grouped_integer (b : bool) (ds : pystr) :
  nonempty ds = true -> forallb is_ascii_digit ds = true ->
  vnd_to_float ud
    (@Some pystr
       (sign_prefix b
        ++ map (subst_char chr_comma chr_dot) (group3 chr_comma ds)))
  = signed b (inject_Z (digits_value ud 0 ds)).
Proof.
  intros Hne Hds. unfold vnd_to_float. cbv zeta.
  assert (Hnum : forallb is_numeric_ascii
                   (sign_prefix b ++ map (subst_char chr_comma chr_dot) (group3 chr_comma ds))
                 = true).
  { rewrite forallb_app, sign_prefix_numeric. cbn [andb].
    apply forallb_forall. intros c Hc. apply in_map_iff in Hc.
    destruct Hc as (c0 & <- & Hc). apply group3_chars in Hc.
    destruct Hc as [->|Hc]; [reflexivity|].
    pose proof (ascii_digit_in ds c0 Hds Hc) as R.
    unfold subst_char. rewrite (not_eqb c0 chr_comma)
      by (unfold chr_comma; lia).
    rewrite forallb_forall in Hds. unfold is_numeric_ascii.
    now rewrite (Hds _ Hc). }
  rewrite (vnd_normalize_no_comma ud _ Hnum), filter_app.
  rewrite group3_erased.
  - rewrite filter_sign_prefix by reflexivity.
    pose proof (sign_prefix_nonempty b ds [] Hne) as N0.
    rewrite app_nil_r in N0. rewrite N0.
    now rewrite py_float_signed_integer.
  - reflexivity.
  - apply (digits_keep_apart ds); [exact Hds|]. intros c R.
    unfold subst_char. rewrite (not_eqb c chr_comma)
      by (unfold chr_comma; lia).
    split; [reflexivity|]. apply negb_true_iff, not_eqb.
    unfold chr_dot. lia.
Qed.


(** What [format_vnd] writes, [vnd_to_float] reads as the amount rounded to
    a whole number. *)
Lemma vnd_to_float_format_vnd (x : Q) :
  vnd_to_float ud (@Some pystr (format_vnd x)) == py_round x 0.
Proof.
  unfold format_vnd. rewrite format_fixed_0. cbv zeta.
  change (u ",") with [chr_comma]. change (u ".") with [chr_dot].
  rewrite replace_char_map, map_app, map_sign_prefix by reflexivity.
  rewrite vnd_to_float_grouped_integer
    by (apply decimal_digits_nonempty || apply decimal_digits_ascii).
  rewrite decimal_digits_value, Z2N.id
    by (apply round_half_even_nonneg, Qabs_nonneg).
  rewrite py_round_0. apply round_half_even_magnitude.
Qed.

(** X1. Formatting an amount with [format_vnd] and parsing the text with
    [vnd_to_float] gives the amount rounded to a whole number; so does
    [vn_money_input] when the proposed text is left as it is. *)
Theorem format_vnd_round_trip (x : Q) :
  vnd_to_float ud (Some (format_vnd x)) == py_round x 0 /\
  forall (text_input : pystr -> pystr -> pystr) (label : pystr),
    text_input label (format_vnd x) = format_vnd x ->
    vn_money_input ud text_input label x == py_round x 0.
Proof.
  split; [apply vnd_to_float_format_vnd|].
  intros text_input label Hbox. unfold vn_money_input. cbv zeta.
  rewrite Hbox. apply vnd_to_float_format_vnd.
Qed.

(** The currency parser on a sign, digits grouped with points, a comma and
    decimals. *)
Lemma vnd_to_float_grouped_decimal (b : bool) (g : char -> char)
    (ip fp : pystr) :
  g chr_comma = chr_dot ->
  (forall c, (48 <= c <= 57)%N -> g c = c) ->
  nonempty ip = true -> forallb is_ascii_digit ip = true ->
  forallb is_ascii_digit fp = true ->
  vnd_to_float ud
    (@Some pystr
       (sign_prefix b ++ map g (group3 chr_comma ip) ++ chr_comma :: fp))
  = signed b (inject_Z (digits_value ud 0 (ip ++ fp))
              / inject_Z (10 ^ Z.of_nat (List.length fp))).
Proof.
  intros Hsep Hg Hne Hip Hfp. unfold vnd_to_float. cbv zeta.
  set (s := sign_prefix b ++ map g (group3 chr_comma ip) ++ chr_comma :: fp).
  assert (Hc : contains (u ",") s = true).
  { change (u ",") with [chr_comma]. rewrite contains_char. unfold s.
    rewrite !existsb_app. cbn [existsb].
    change (chr_comma =? chr_comma)%N with true.
    now rewrite orb_true_r, orb_true_r. }
  assert (Hall : forallb
                   (fun c => is_numeric_ascii c || (c =? chr_comma)%N) s
                 = true).
  { unfold s. rewrite !forallb_app. cbn [forallb].
    change (chr_comma =? chr_comma)%N with true. rewrite orb_true_r.
    apply andb_true_iff. split; [|apply andb_true_iff; split].
    - now destruct b.
    - apply forallb_forall. intros c Hin. apply in_map_iff in Hin.
      destruct Hin as (c0 & <- & Hin). apply group3_chars in Hin.
      destruct Hin as [->|Hin]; [now rewrite Hsep|].
      rewrite (Hg c0) by now apply (ascii_digit_in ip).
      rewrite forallb_forall in Hip. unfold is_numeric_ascii.
      now rewrite (Hip _ Hin).
    - cbn [andb]. apply forallb_forall. intros c Hin.
      rewrite forallb_forall in Hfp. unfold is_numeric_ascii.
      now rewrite (Hfp _ Hin). }
  rewrite (vnd_normalize_comma ud s Hc Hall). unfold s.
  rewrite !filter_app, !map_app.
  rewrite filter_sign_prefix, map_sign_prefix by reflexivity.
  rewrite group3_erased.
  - cbn [filter]. change (negb (chr_comma =? chr_dot)%N) with true.
    cbv iota. cbn [map].
    change (subst_char chr_comma chr_dot chr_comma) with chr_dot.
    rewrite (forallb_filter_id _ fp).
    + rewrite (map_fixed _ ip), (map_fixed _ fp).
      * rewrite (sign_prefix_nonempty b ip _ Hne).
        now rewrite py_float_signed_decimal.
      * intros c Hin. pose proof (ascii_digit_in fp c Hfp Hin).
        unfold subst_char. now rewrite not_eqb by (unfold chr_comma; lia).
      * intros c Hin. pose proof (ascii_digit_in ip c Hip Hin).
        unfold subst_char. now rewrite not_eqb by (unfold chr_comma; lia).
    + apply forallb_forall. intros c Hin.
      pose proof (ascii_digit_in fp c Hfp Hin).
      apply negb_true_iff, not_eqb. unfold chr_dot. lia.
  - rewrite Hsep. reflexivity.
  - apply (digits_keep_apart ip); [exact Hip|]. intros c R.
    split; [now apply Hg|]. apply negb_true_iff, not_eqb.
    unfold chr_dot. lia.
Qed.

Lemma separator_swap_digit (c : char) :
  (48 <= c <= 57)%N ->
  subst_char chr_underscore chr_dot
    (subst_char chr_dot chr_comma (subst_char chr_comma chr_underscore c))
  = c.
Proof.
  intro R. unfold subst_char.
  rewrite (not_eqb c chr_comma) by (unfold chr_comma; lia).
  rewrite (not_eqb c chr_dot) by (unfold chr_dot; lia).
  now rewrite (not_eqb c chr_underscore) by (unfold chr_underscore; lia).
Qed.

(** X2. Formatting an amount with [format_vnd_float] and parsing the text
    with [vnd_to_float] gives the amount rounded to 2 decimals. *)
Theorem format_vnd_float_round_trip (x : Q) :
  vnd_to_float ud (Some (format_vnd_float x)) == py_round x 2.
Proof.
  unfold format_vnd_float. cbv zeta.
  destruct (format_fixed_2 ud true x)
    as (ip & fp & E & Hne & Hip & Hfp & Hlen & Hval).
  rewrite E.
  change (u ",") with [chr_comma]. change (u ".") with [chr_dot].
  change (u "_") with [chr_underscore].
  rewrite !replace_char_map, !map_map, !map_app.
  rewrite map_sign_prefix by reflexivity. cbn [map].
  match goal with
  | |- context [map ?f (group3 chr_comma ip)] => set (g := f)
  end.
  change (subst_char chr_underscore chr_dot
            (subst_char chr_dot chr_comma
               (subst_char chr_comma chr_underscore chr_dot)))
    with chr_comma.
  rewrite (map_fixed g fp).
  - rewrite (vnd_to_float_grouped_decimal (Qltb x 0) g ip fp); auto.
    + rewrite Hval, Hlen. apply signed_round_hundredths.
    + intros c R. now apply separator_swap_digit.
  - intros c Hin. apply separator_swap_digit.
    now apply (ascii_digit_in fp).
Qed.

(** The percent pattern finds the digits, the point and the decimals
    behind a sign. *)
Lemma search_decimal_token_signed (b : bool) (ip fp : pystr) :
  nonempty ip = true -> forallb is_ascii_digit ip = true ->
  nonempty fp = true -> forallb is_ascii_digit fp = true ->
  search_decimal_token ud (sign_prefix b ++ ip ++ chr_dot :: fp)
  = Some (ip ++ chr_dot :: fp).
Proof.
  intros Hne Hip Hnf Hfp.
  pose proof (ascii_digits_are_digits ud ip Hip) as Hdi.
  pose proof (ascii_digits_are_digits ud fp Hfp) as Hdf.
  assert (Hdot : is_digit ud chr_dot = false) by reflexivity.
  destruct (digits_then_rest ud ip (chr_dot :: fp) Hdi Hdot) as [Ht Hr].
  destruct (digits_only ud fp Hdf) as [Hft _].
  assert (Core : search_decimal_token ud (ip ++ chr_dot :: fp)
                 = Some (ip ++ chr_dot :: fp)).
  { destruct ip as [|c ip]; [discriminate|].
    assert (Hc : is_digit ud c = true)
      by (cbn [forallb] in Hdi; now apply andb_true_iff in Hdi).
    change ((c :: ip) ++ chr_dot :: fp) with (c :: (ip ++ chr_dot :: fp))
      at 1.
    cbn [search_decimal_token]. rewrite Hc.
    change (c :: (ip ++ chr_dot :: fp)) with ((c :: ip) ++ chr_dot :: fp).
    rewrite Ht, Hr, Hft, Hnf.
    now change (chr_dot =? chr_dot)%N with true. }
  destruct b; [|exact Core].
  cbn [sign_prefix app search_decimal_token].
  now change (is_digit ud chr_minus) with false.
Qed.

(** X3. [vn_percent_input] proposes the rate with two decimals and a comma;
    when that text is left as it is, the rate read back is the absolute
    value of the rate rounded to 2 decimals: a minus sign is not read. *)
Theorem percent_box_round_trip (x : Q) :
  let shown := replace (u ".") (u ",") (format_fixed false 2 x) in
  (exists q,
      percent_to_float ud (Some shown) = Ok q /\ q == Qabs (py_round x 2)) /\
  forall (text_input : pystr -> pystr -> pystr) (label : pystr),
    text_input label shown = shown ->
    exists q,
      vn_percent_input ud text_input label x = Ok q /\
      q == Qabs (py_round x 2).
Proof.
  cbv zeta.
  destruct (format_fixed_2 ud false x)
    as (ip & fp & E & Hne & Hip & Hfp & Hlen & Hval).
  assert (Hnf : nonempty fp = true) by (destruct fp; [discriminate|easy]).
  assert (R : exists q,
             percent_to_float ud
               (Some (replace (u ".") (u ",") (format_fixed false 2 x)))
             = Ok q /\ q == Qabs (py_round x 2)).
  { unfold percent_to_float. rewrite E.
    change (u ",") with [chr_comma]. change (u ".") with [chr_dot].
    rewrite !replace_char_map, map_map, !map_app.
    rewrite map_sign_prefix by reflexivity. cbn [map].
    change (subst_char chr_comma chr_dot (subst_char chr_dot chr_comma chr_dot))
      with chr_dot.
    assert (Fix : forall l, forallb is_ascii_digit l = true ->
              map (fun c => subst_char chr_comma chr_dot
                              (subst_char chr_dot chr_comma c)) l = l).
    { intros l Hl. apply map_fixed. intros c Hin.
      pose proof (ascii_digit_in l c Hl Hin). unfold subst_char.
      rewrite (not_eqb c chr_dot) by (unfold chr_dot; lia).
      now rewrite (not_eqb c chr_comma) by (unfold chr_comma; lia). }
    rewrite (Fix ip Hip), (Fix fp Hfp).
    rewrite (search_decimal_token_signed _ ip fp Hne Hip Hnf Hfp).
    pose proof (py_float_signed_decimal ud false ip fp Hne Hip Hfp) as P.
    cbn [sign_prefix app signed] in P. rewrite P.
    eexists. split; [reflexivity|].
    rewrite Hval, Hlen, <- (signed_round_hundredths x).
    symmetry. apply Qabs_signed.
    apply Qle_shift_div_l; [reflexivity|].
    assert (0 <= inject_Z (round_half_even (Qabs x * 100))).
    { change 0 with (inject_Z 0). rewrite <- Zle_Qle.
      apply round_half_even_nonneg.
      apply Qmult_le_0_compat; [apply Qabs_nonneg|discriminate]. }
    lra. }
  split; [exact R|].
  intros text_input label Hbox. unfold vn_percent_input. cbv zeta.
  now rewrite Hbox.
Qed.

End RoundTrips.

(** ** What the percent parser reads *)

Section PercentFacts.

Variable ud : char -> option N.

Lemma digits_value_nonneg (s : pystr) : forall acc,
  (0 <= acc)%Z -> (0 <= digits_value ud acc s)%Z.
Proof.
  induction s as [|c s IH]; intros acc H; [exact H|].
  cbn [digits_value]. destruct (decimal_digit ud c); [|exact H].
  apply IH. lia.
Qed.

(** A string that does not begin with a minus sign is never read as a
    negative number. *)
Lemma py_float_unsigned (c : char) (s : pystr) (q : Q) :
  (c =? chr_minus)%N = false -> py_float ud (c :: s) = Ok q -> 0 <= q.
Proof.
  intros Hc. unfold py_float. cbv beta iota. rewrite Hc. cbv beta iota zeta.
  assert (V : forall l, 0 <= inject_Z (digits_value ud 0 l)).
  { intro l. change 0 with (inject_Z 0). rewrite <- Zle_Qle.
    apply digits_value_nonneg. lia. }
  destruct (drop_digits ud (c :: s)) as [|d frac].
  - destruct (nonempty (take_digits ud (c :: s))); [|discriminate].
    intros [= <-]. apply V.
  - match goal with |- context [if ?b then _ else _] => destruct b end;
      [|discriminate].
    intros [= <-]. apply Qle_shift_div_l; [|rewrite Qmult_0_l; apply V].
    change 0 with (inject_Z 0). rewrite <- Zlt_Qlt.
    apply Z.pow_pos_nonneg; lia.
Qed.

Lemma decimal_token_head (s g : pystr) :
  search_decimal_token ud s = Some g ->
  exists c g', g = c :: g' /\ is_digit ud c = true.
Proof.
  induction s as [|c s IH]; [discriminate|].
  cbn [search_decimal_token]. destruct (is_digit ud c) eqn:Ec; [|exact IH].
  cbn [take_digits]. rewrite Ec.
  destruct (drop_digits ud (c :: s)) as [|d frac].
  - intros [= <-]. eauto.
  - destruct ((d =? chr_dot)%N && nonempty (take_digits ud frac));
      intros [= <-]; cbn [app]; eauto.
Qed.

(** X4. [percent_to_float] returns a number for every text, and never a
    negative one: a minus sign before the digits is not read. *)
Theorem percent_to_float_nonneg (s : option pystr) :
  exists q, percent_to_float ud s = Ok q /\ 0 <= q.
Proof.
  destruct (percent_to_float_returns ud s) as [q Hq].
  exists q. split; [exact Hq|].
  destruct s as [s|]; cbn [percent_to_float] in Hq.
  - destruct (search_decimal_token ud (replace (u ",") (u ".") s))
      as [g|] eqn:E.
    + destruct (decimal_token_head _ _ E) as (c & g' & -> & Hc).
      destruct (digit_not_punctuation ud c Hc) as [Hm _].
      now apply (py_float_unsigned c g' q Hm).
    + injection Hq as <-. discriminate.
  - injection Hq as <-. discriminate.
Qed.

(** Looking for the token skips everything before the first digit. *)
Lemma search_skips_non_digits (p s : pystr) :
  existsb (is_digit ud) p = false ->
  search_decimal_token ud (p ++ s) = search_decimal_token ud s.
Proof.
  induction p as [|c p IH]; intro H; [reflexivity|].
  cbn [existsb] in H. apply orb_false_iff in H. destruct H as [Hc Hp].
  cbn [app search_decimal_token]. rewrite Hc. now apply IH.
Qed.

Lemma subst_char_not_digit (c : char) :
  is_digit ud c = false -> is_digit ud (subst_char chr_comma chr_dot c) = false.
Proof.
  intro H. unfold subst_char. now destruct (c =? chr_comma)%N.
Qed.

(** X5. Text before the first digit is ignored by [percent_to_float]:
    a label or a sign in front of the number does not change the result. *)
Theorem percent_to_float_skips_prefix (p s : pystr) :
  existsb (is_digit ud) p = false ->
  percent_to_float ud (Some (p ++ s)) = percent_to_float ud (Some s).
Proof.
  intro H. unfold percent_to_float.
  change (u ",") with [chr_comma]. change (u ".") with [chr_dot].
  rewrite !replace_char_map, map_app, search_skips_non_digits; [reflexivity|].
  apply not_true_is_false. intro E. apply existsb_exists in E.
  destruct E as (c & Hin & Hc). apply in_map_iff in Hin.
  destruct Hin as (c0 & <- & Hin).
  assert (H0 : is_digit ud c0 = false).
  { destruct (is_digit ud c0) eqn:E0; [|reflexivity].
    assert (existsb (is_digit ud) p = true)
      by (apply existsb_exists; eauto).
    congruence. }
  rewrite (subst_char_not_digit c0 H0) in Hc. discriminate.
Qed.

End PercentFacts.

(** ** What the currency parser reads *)

Lemma is_prefix_firstn (old s : pystr) :
  is_prefix old s = true -> firstn (List.length old) s = old.
Proof.
  revert s. induction old as [|a old IH]; intros s H; [reflexivity|].
  destruct s as [|c s]; [discriminate|]. cbn [is_prefix] in H.
  apply andb_true_iff in H. destruct H as [E H]. apply N.eqb_eq in E.
  subst c. cbn [List.length firstn]. now rewrite (IH s H).
Qed.

(** Deleting a token that a filter would drop anyway does not change what
    the filter keeps. *)
Lemma filter_replace_aux (P : char -> bool) (old : pystr) :
  nonempty old = true ->
  forallb (fun c => negb (P c)) old = true ->
  forall s k,
    forallb (fun c => negb (P c)) (firstn k s) = true ->
    filter P (replace_aux old [] k s) = filter P s.
Proof.
  intros Hne Hold. induction s as [|c s IH]; intros k Hk; [reflexivity|].
  destruct k as [|k]; cbn [replace_aux].
  - destruct (is_prefix old (c :: s)) eqn:E.
    + pose proof (is_prefix_firstn old (c :: s) E) as F.
      destruct old as [|a old]; [discriminate|].
      cbn [List.length firstn] in F. injection F as -> F.
      cbn [forallb] in Hold. apply andb_true_iff in Hold.
      destruct Hold as [Ha Hold]. apply negb_true_iff in Ha.
      cbn [app pred List.length filter]. rewrite Ha.
      apply IH. now rewrite F.
    + cbn [filter]. now rewrite (IH O eq_refl).
  - cbn [firstn forallb] in Hk. apply andb_true_iff in Hk.
    destruct Hk as [Hc Hk]. apply negb_true_iff in Hc.
    cbn [filter]. rewrite Hc. now apply IH.
Qed.

Lemma filter_replace_delete (P : char -> bool) (old s : pystr) :
  nonempty old = true ->
  forallb (fun c => negb (P c)) old = true ->
  filter P (replace old [] s) = filter P s.
Proof. intros Hne H. unfold replace. now apply filter_replace_aux. Qed.

Lemma replace_aux_subset (old : pystr) (c : char) : forall s k,
  In c (replace_aux old [] k s) -> In c s.
Proof.
  induction s as [|d s IH]; intros k H; [exact H|].
  destruct k as [|k]; cbn [replace_aux] in H.
  - destruct (is_prefix old (d :: s)).
    + right. now apply (IH _ H).
    + destruct H as [H|H]; [now left|right; now apply (IH _ H)].
  - right. now apply (IH _ H).
Qed.

Section CurrencyFacts.

Variable ud : char -> option N.

Hypothesis marks : marks_are_not_digits ud.

Lemma mark_dropped (old : pystr) :
  old = [273%N] \/ old = [86; 78; 68]%N \/ old = [118; 110; 273]%N
  \/ old = [8363%N] \/ old = [32%N] ->
  nonempty old = true /\ forallb (fun c => negb (numeric ud c)) old = true.
Proof.
  destruct marks as [M1 M2].
  assert (D1 : is_digit ud 273%N = false)
    by (unfold is_digit, decimal_digit; cbn; now rewrite M1).
  assert (D2 : is_digit ud 8363%N = false)
    by (unfold is_digit, decimal_digit; cbn; now rewrite M2).
  intros [->|[->|[->|[->| ->]]]]; unfold numeric; cbn [forallb nonempty];
    rewrite ?D1, ?D2; split; reflexivity.
Qed.

(** The replacements of the currency marks are absorbed by the final
    filter. *)
Lemma marks_absorbed (t : pystr) :
  re_sub_non_numeric ud
    (replace (u " ") (u "")
       (replace (u "₫") (u "")
          (replace (u "vnđ") (u "")
             (replace (u "VND") (u "") (replace (u "đ") (u "") t)))))
  = re_sub_non_numeric ud t.
Proof.
  change (u "đ") with [273%N]. change (u "VND") with [86; 78; 68]%N.
  change (u "vnđ") with [118; 110; 273]%N. change (u "₫") with [8363%N].
  change (u " ") with [32%N]. change (u "") with (@nil char).
  unfold re_sub_non_numeric. fold (numeric ud).
  rewrite !filter_replace_delete by (apply mark_dropped; tauto).
  reflexivity.
Qed.

End CurrencyFacts.

Lemma contains_char_filter (P : char -> bool) (a : char) (s : pystr) :
  P a = true -> contains [a] (filter P s) = contains [a] s.
Proof.
  intro H. rewrite !contains_char.
  induction s as [|c s IH]; [reflexivity|].
  cbn [filter existsb]. destruct (P c) eqn:E; cbn [existsb].
  - now rewrite IH.
  - destruct (N.eqb_spec c a) as [->|_]; [congruence|exact IH].
Qed.

(** Characters that a pipeline of filters and a rewriting drops in the end
    can as well be dropped first. *)
Lemma drop_first (K p F : char -> bool) (h : char -> char) (s : pystr) :
  (forall c, K c = false -> p c = true -> F (h c) = false) ->
  filter F (map h (filter p (filter K s))) = filter F (map h (filter p s)).
Proof.
  intro H. induction s as [|c s IH]; [reflexivity|].
  cbn [filter]. destruct (K c) eqn:Ek; cbn [filter].
  - destruct (p c); cbn [map filter]; now rewrite IH.
  - destruct (p c) eqn:Ep; cbn [map filter]; [|exact IH].
    now rewrite (H c Ek Ep).
Qed.

Section CurrencyReading.

Variable ud : char -> option N.

(** [vnd_normalize] without its detours: the separators are settled, then
    only digits, points and minus signs are kept. *)
Lemma vnd_normalize_direct (s : pystr) :
  marks_are_not_digits ud ->
  vnd_normalize ud s
  = filter (numeric ud)
      (map (if contains (u ",") s
            then subst_char chr_comma chr_dot else fun c => c)
         (filter (fun c => negb (c =? chr_dot)%N) s)).
Proof.
  intro marks. unfold vnd_normalize. rewrite (marks_absorbed ud marks).
  unfold re_sub_non_numeric. fold (numeric ud). f_equal.
  change (u ".") with [chr_dot]. change (u ",") with [chr_comma].
  change (u "") with (@nil char).
  rewrite !replace_char_delete, !replace_char_map.
  destruct (contains [chr_comma] s); cbn [andb].
  - now destruct (contains [chr_dot] s).
  - now rewrite map_id.
Qed.

(** X6. Only digits, points, commas and minus signs count for
    [vnd_to_float]: letters, spaces and currency marks anywhere in the
    text do not change the amount that is read. *)
Theorem vnd_to_float_ignores_other_characters (s : pystr) :
  marks_are_not_digits ud ->
  vnd_to_float ud (Some (filter (vnd_relevant ud) s))
  = vnd_to_float ud (Some s).
Proof.
  intro marks.
  assert (E : vnd_normalize ud (filter (vnd_relevant ud) s)
              = vnd_normalize ud s).
  { rewrite !vnd_normalize_direct by exact marks.
    change (u ",") with [chr_comma].
    rewrite contains_char_filter by reflexivity.
    apply drop_first. intros c Hk _.
    unfold vnd_relevant in Hk.
    apply orb_false_iff in Hk. destruct Hk as [Hk Hminus].
    apply orb_false_iff in Hk. destruct Hk as [Hk Hcomma].
    apply orb_false_iff in Hk. destruct Hk as [Hdigit Hdot].
    assert (Hc : numeric ud c = false)
      by (unfold numeric; now rewrite Hdigit, Hdot, Hminus).
    destruct (contains [chr_comma] s); [|exact Hc].
    unfold subst_char. now rewrite Hcomma. }
  unfold vnd_to_float. cbv zeta. now rewrite E.
Qed.

Lemma vnd_normalize_subset (s : pystr) (c : char) :
  In c (vnd_normalize ud s) ->
  In c (if contains (u ",") s
        then replace (u ",") (u ".") (replace (u ".") (u "") s)
        else replace (u ".") (u "") s).
Proof.
  unfold vnd_normalize, re_sub_non_numeric. intro H.
  apply filter_In in H. destruct H as [H _].
  do 5 apply replace_aux_subset in H.
  destruct (contains (u ",") s); cbn [andb] in *; [|exact H].
  now destruct (contains (u ".") s).
Qed.

(** A string without a point is read by [float] as a whole number. *)
Lemma py_float_whole (t : pystr) (q : Q) :
  ~ In chr_dot t -> py_float ud t = Ok q -> exists z, q == inject_Z z.
Proof.
  intros Hdot. unfold py_float.
  set (sb := match t with
             | [] => (false, t)
             | c :: s' => if (c =? chr_minus)%N then (true, s') else (false, t)
             end).
  assert (Hb : forall c, In c (snd sb) -> In c t).
  { intros c. unfold sb. destruct t as [|c0 t']; [easy|].
    destruct (c0 =? chr_minus)%N; cbn [snd]; [now right|easy]. }
  destruct sb as [negative body]. cbn [snd] in Hb. cbv beta iota zeta.
  assert (Hd : forall l c, In c (drop_digits ud l) -> In c l).
  { induction l as [|a l IH]; intros c Hc; [exact Hc|].
    cbn [drop_digits] in Hc. destruct (is_digit ud a); [right; now apply IH|].
    exact Hc. }
  destruct (drop_digits ud body) as [|d frac] eqn:E.
  - destruct (nonempty (take_digits ud body)); [|discriminate].
    intros [= <-]. destruct negative.
    + eexists (- _)%Z. now rewrite inject_Z_opp.
    + eexists. reflexivity.
  - destruct (N.eqb_spec d chr_dot) as [->|_]; cbn [andb]; [|discriminate].
    exfalso. apply Hdot, Hb, Hd. rewrite E. now left.
Qed.

(** X7. Without a comma in the text, [vnd_to_float] reads a whole number:
    a point is then always a thousands separator, never a decimal mark. *)
Theorem vnd_to_float_whole_without_comma (s : pystr) :
  contains (u ",") s = false ->
  exists z, vnd_to_float ud (Some s) == inject_Z z.
Proof.
  intro Hc. unfold vnd_to_float. cbv zeta.
  assert (Hdot : ~ In chr_dot (vnd_normalize ud s)).
  { intro H. apply vnd_normalize_subset in H. rewrite Hc in H.
    change (u ".") with [chr_dot] in H. change (u "") with (@nil char) in H.
    rewrite replace_char_delete in H. apply filter_In in H.
    destruct H as [_ H]. now rewrite N.eqb_refl in H. }
  destruct (nonempty (vnd_normalize ud s)); [|now exists 0%Z].
  destruct (py_float ud (vnd_normalize ud s)) as [q|e] eqn:E;
    [|now exists 0%Z].
  now apply (py_float_whole _ q Hdot).
Qed.

End CurrencyReading.

(** ** The repair pass *)

Ltac q_facts :=
  repeat match goal with
  | H : Qeq_bool _ _ = true |- _ => apply Qeq_bool_iff in H
  | H : Qeq_bool _ _ = false |- _ => apply Qeq_bool_false in H
  | H : Qltb _ _ = true |- _ => apply Qltb_true in H
  | H : Qltb _ _ = false |- _ => apply Qltb_false in H
  end.

Ltac repair_fields :=
  cbn [ten_khach_hang cccd noi_cu_tru so_dien_thoai muc_dich_vay
       tong_nhu_cau_von von_doi_ung so_tien_vay lai_suat_nam
       thoi_gian_vay_thang ky_han_tra thu_nhap_thang gia_tri_tsdb
       tong_no_hien_tai loi_nhuan_rong_nam tong_von_dau_tu
       set_tong_nhu_cau_von set_tong_von_dau_tu set_gia_tri_tsdb andb] in *.

(** Splits on every test of the repair that is still in the goal. *)
Ltac repair_cases :=
  repeat (repair_fields;
          match goal with
          | |- context [Qeq_bool ?a ?b] =>
              let E := fresh "E" in destruct (Qeq_bool a b) eqn:E
          | |- context [Qltb ?a ?b] =>
              let E := fresh "E" in destruct (Qltb a b) eqn:E
          end);
  repair_fields.

Lemma cross_field_repair_repaired (d : LoanApplication) :
  repaired (cross_field_repair d).
Proof.
  destruct d as [n1 n2 n3 n4 n5 tc eq loan rate term period inc ts debt
                   profit inv].
  unfold repaired, cross_field_repair. repair_cases;
    q_facts; repeat split; intros; try lra; try contradiction;
    try (exfalso; lra).
Qed.

Lemma cross_field_repair_frame (d : LoanApplication) :
  let r := cross_field_repair d in
  von_doi_ung r = von_doi_ung d /\ so_tien_vay r = so_tien_vay d /\
  lai_suat_nam r = lai_suat_nam d /\
  thoi_gian_vay_thang r = thoi_gian_vay_thang d /\
  thu_nhap_thang r = thu_nhap_thang d.
Proof.
  destruct d as [n1 n2 n3 n4 n5 tc eq loan rate term period inc ts debt
                   profit inv].
  cbv zeta. unfold cross_field_repair. repair_cases; repeat split.
Qed.

Section RepairFacts.

Variable ud : char -> option N.
Variable re_search : string -> list re_flag -> pystr -> option Match.
Variable Document : option (list Byte.byte -> result (list pystr)).

Lemma extract_fields_ends_with_repair (data r : LoanApplication)
    (full_text : pystr) :
  extract_fields ud re_search data full_text = Ok r ->
  exists d, r = cross_field_repair d.
Proof.
  unfold extract_fields. cbv zeta.
  destruct (rule_thoi_gian_vay_thang ud re_search full_text _) as [d1|];
    cbn [bind]; [|discriminate].
  destruct (rule_lai_suat_nam ud re_search full_text d1) as [d2|];
    cbn [bind]; [|discriminate].
  intros [= <-]. eauto.
Qed.

(** X8. Every record that [extract_from_docx] returns satisfies the
    cross-field invariants: the total capital need is 0 only if equity plus
    loan is not positive, the total investment is 0 only if the total
    capital need is 0, and the collateral value is 0 only if the total
    capital need is not positive. *)
Theorem extracted_record_is_repaired (file_bytes : list Byte.byte)
    (r : LoanApplication) :
  extract_from_docx ud re_search Document file_bytes = Ok r -> repaired r.
Proof.
  unfold extract_from_docx. destruct Document as [reader|].
  - destruct (reader file_bytes) as [paragraphs|e]; cbn [bind];
      [|discriminate].
    intro H. apply extract_fields_ends_with_repair in H.
    destruct H as [d ->]. apply cross_field_repair_repaired.
  - intros [= <-]. unfold repaired. cbn. repeat split; intros _; discriminate.
Qed.

End RepairFacts.

(** X9. The repair pass is idempotent: a second pass changes nothing. *)
Theorem cross_field_repair_idempotent (d : LoanApplication) :
  cross_field_repair (cross_field_repair d) = cross_field_repair d.
Proof.
  destruct d as [n1 n2 n3 n4 n5 tc eq loan rate term period inc ts debt
                   profit inv].
  unfold cross_field_repair. repair_cases;
    try reflexivity; exfalso; q_facts; try contradiction; lra.
Qed.

(** ** Repair, then metrics *)

Lemma isclose_same (a rel_tol abs_tol : Q) : isclose a a rel_tol abs_tol = true.
Proof.
  unfold isclose. replace (Qeq_bool a a) with true; [reflexivity|].
  symmetry. apply Qeq_bool_iff. reflexivity.
Qed.

Lemma cross_field_repair_fills_need (d : LoanApplication) :
  tong_nhu_cau_von d == 0 -> 0 < von_doi_ung d + so_tien_vay d ->
  tong_nhu_cau_von (cross_field_repair d) = von_doi_ung d + so_tien_vay d.
Proof.
  destruct d as [n1 n2 n3 n4 n5 tc eq loan rate term period inc ts debt
                   profit inv].
  repair_fields. intros Hz Hpos. unfold cross_field_repair. repair_fields.
  apply Qeq_bool_iff in Hz. apply Qltb_true in Hpos. rewrite Hz, Hpos.
  repair_cases; reflexivity.
Qed.

(** X10. When the document states no total capital need but a positive
    equity plus loan, the repaired record passes the plan-consistency check
    of [compute_metrics]. *)
Theorem repaired_need_is_consistent (d : LoanApplication) (pmt : Q) :
  tong_nhu_cau_von d == 0 -> 0 < von_doi_ung d + so_tien_vay d ->
  payment_of d = Ok pmt ->
  exists res,
    compute_metrics (cross_field_repair d) = Ok res /\
    PMT_thang res = pmt /\ Phuong_an_hop_ly res = true.
Proof.
  intros Hz Hpos Hpmt.
  destruct (cross_field_repair_frame d) as (Heq & Hloan & Hrate & Hterm & _).
  assert (Hpmt' : payment_of (cross_field_repair d) = Ok pmt).
  { unfold payment_of in *. now rewrite Hloan, Hrate, Hterm. }
  pose proof (compute_metrics_returns _ pmt Hpmt') as H. cbv zeta in H.
  eexists. split; [exact H|]. cbn [PMT_thang Phuong_an_hop_ly].
  split; [reflexivity|].
  rewrite (cross_field_repair_fills_need d Hz Hpos), Heq, Hloan.
  apply isclose_same.
Qed.

(** ** Ratios *)

(** X11. [compute_metrics] raises exactly when the payment does, with the
    same exception: none of its own divisions can fail. *)
Theorem compute_metrics_raises_with_payment (d : LoanApplication) (e : exn) :
  compute_metrics d = Raise e <-> payment_of d = Raise e.
Proof.
  split.
  - intro H. destruct (payment_of d) as [pmt|e'] eqn:Hpmt.
    + pose proof (compute_metrics_returns d pmt Hpmt) as Hr. cbv zeta in Hr.
      rewrite Hr in H. discriminate.
    + unfold payment_of in Hpmt. unfold compute_metrics in H.
      rewrite Hpmt in H. cbn [bind] in H. now injection H as ->.
  - intro H. unfold payment_of in H. unfold compute_metrics.
    rewrite H. reflexivity.
Qed.


Lemma py_max_eps_id (x : Q) : eps <= x -> py_max eps x == x.
Proof.
  intro H. destruct (py_max_cases eps x) as [[_ E]|[Hle E]]; rewrite E; lra.
Qed.

Lemma eps_pos : 0 < eps.
Proof. reflexivity. Qed.

(** X13. With a loan of at least 1e-9 and a positive collateral value, the
    loan-to-value ratio and the collateral coverage are defined and are
    reciprocals of each other. *)
Theorem ltv_times_coverage (d : LoanApplication) (pmt : Q) :
  payment_of d = Ok pmt ->
  eps <= so_tien_vay d -> 0 < gia_tri_tsdb d ->
  exists res ltv coverage,
    compute_metrics d = Ok res /\
    LTV res = Num ltv /\ Coverage res = Num coverage /\
    ltv * coverage == 1.
Proof.
  intros Hpmt Hloan Hts. pose proof (compute_metrics_returns d pmt Hpmt) as H.
  cbv zeta in H. pose proof eps_pos as Heps.
  assert (G1 : Qltb 0 (gia_tri_tsdb d) = true) by now apply Qltb_true.
  assert (G2 : Qltb 0 (so_tien_vay d) = true) by (apply Qltb_true; lra).
  rewrite G1, G2 in H. cbn [nan_unless] in H.
  eexists _, _, _. split; [exact H|].
  cbn [LTV Coverage]. split; [reflexivity|split; [reflexivity|]].
  rewrite (py_max_eps_id _ Hloan). field. split; lra.
Qed.

(** X14. With a monthly income of at least 1e-9 the income floor does
    nothing: DSR is payment over income, CFR is (income - payment) over
    income, and debt over income is (existing debt + loan) over twelve
    months of income. *)
Theorem income_ratios_above_floor (d : LoanApplication) (pmt : Q) :
  payment_of d = Ok pmt -> eps <= thu_nhap_thang d ->
  exists res dsr cfr,
    compute_metrics d = Ok res /\ DSR res = Num dsr /\ CFR res = Num cfr /\
    dsr == pmt / thu_nhap_thang d /\
    cfr == (thu_nhap_thang d - pmt) / thu_nhap_thang d /\
    Debt_over_Income res
    == (tong_no_hien_tai d + so_tien_vay d) / (thu_nhap_thang d * 12).
Proof.
  intros Hpmt Hinc. pose proof (compute_metrics_returns d pmt Hpmt) as H.
  cbv zeta in H. pose proof eps_pos as Heps.
  eexists _, _, _. split; [exact H|].
  cbn [DSR CFR Debt_over_Income].
  split; [reflexivity|split; [reflexivity|]].
  assert (E : py_max eps (thu_nhap_thang d) == thu_nhap_thang d)
    by now apply py_max_eps_id.
  assert (E12 : py_max eps (py_max eps (thu_nhap_thang d) * 12)
                == thu_nhap_thang d * 12).
  { rewrite py_max_eps_id; [now rewrite E|]. rewrite E. lra. }
  rewrite E12, E. repeat split; reflexivity.
Qed.

(** ** Rows of the schedule *)


Section ScheduleRows.

Variables (r pmt : Q) (start_date : Z).




Lemma ideal_nonneg (c : nat -> Q) (n : nat) :
  ideal r pmt c n -> forall k, (k < n)%nat -> 0 <= c k.
Proof.
  intros Hc k Hk. destruct (Hc k Hk) as [_ [H0 Hle]]. lra.
Qed.



End ScheduleRows.









(** ** Trimmed text *)

Lemma lstrip_starts_clean (s : pystr) : starts_clean (lstrip s).
Proof.
  induction s as [|c s IH]; cbn [lstrip]; [exact I|].
  destruct (is_space c) eqn:E; [exact IH|exact E].
Qed.

Lemma lstrip_clean (s : pystr) : starts_clean s -> lstrip s = s.
Proof.
  destruct s as [|c s]; [reflexivity|]. cbn [starts_clean lstrip].
  now intros ->.
Qed.

Lemma lstrip_keeps_last (w : pystr) (c : char) :
  is_space c = false -> exists w', lstrip (w ++ [c]) = w' ++ [c].
Proof.
  intro Hc. induction w as [|a w IH]; cbn [lstrip app].
  - rewrite Hc. now exists [].
  - destruct (is_space a); [exact IH|]. now exists (a :: w).
Qed.

Lemma strip_trimmed (s : pystr) : trimmed (strip s).
Proof.
  unfold trimmed, strip. rewrite rev_involutive.
  split; [|apply lstrip_starts_clean].
  pose proof (lstrip_starts_clean s) as H.
  destruct (lstrip s) as [|c t]; [exact I|]. cbn [starts_clean] in H.
  cbn [rev]. destruct (lstrip_keeps_last (rev t) c H) as [w ->].
  rewrite rev_app_distr. exact H.
Qed.

Lemma strip_of_trimmed (s : pystr) : trimmed s -> strip s = s.
Proof.
  intros [H1 H2]. unfold strip.
  rewrite (lstrip_clean s H1), (lstrip_clean (rev s) H2).
  apply rev_involutive.
Qed.

Lemma firstn_starts_clean (n : nat) (s : pystr) :
  starts_clean s -> starts_clean (firstn n s).
Proof. destruct n, s; cbn; auto. Qed.

Section TextFields.

Variable ud : char -> option N.
Variable re_search : string -> list re_flag -> pystr -> option Match.
Variable Document : option (list Byte.byte -> result (list pystr)).

Ltac text_rule :=
  unfold text_fields_trimmed, trimmed;
  intros ([? ?] & [? ?] & [? ?] & [? ?] & ?);
  repeat match goal with
  | |- context [re_search ?p ?f ?t] => destruct (re_search p f t)
  | |- context [if ?b then _ else _] => destruct b
  end;
  cbn [ten_khach_hang cccd noi_cu_tru so_dien_thoai muc_dich_vay
       set_ten_khach_hang set_cccd set_noi_cu_tru set_so_dien_thoai
       set_muc_dich_vay set_tong_nhu_cau_von set_von_doi_ung
       set_so_tien_vay set_lai_suat_nam set_thoi_gian_vay_thang
       set_thu_nhap_thang set_gia_tri_tsdb set_loi_nhuan_rong_nam
       set_tong_von_dau_tu];
  repeat split;
  first [ assumption
        | apply (proj1 (strip_trimmed _))
        | apply (proj2 (strip_trimmed _))
        | apply firstn_starts_clean, (proj1 (strip_trimmed _)) ].

Lemma text_rules_trimmed (t : pystr) (d : LoanApplication) :
  text_fields_trimmed d ->
  text_fields_trimmed
    (rule_muc_dich_vay re_search t
       (rule_so_dien_thoai re_search t
          (rule_noi_cu_tru re_search t
             (rule_cccd re_search t (rule_ten_khach_hang re_search t d))))).
Proof.
  unfold rule_muc_dich_vay, rule_so_dien_thoai, rule_noi_cu_tru, rule_cccd,
    rule_ten_khach_hang.
  destruct d. text_rule.
Qed.

Lemma amount_rules_trimmed (t : pystr) (d : LoanApplication) :
  text_fields_trimmed d ->
  text_fields_trimmed
    (rule_so_tien_vay ud re_search t
       (rule_von_doi_ung ud re_search t
          (rule_tong_nhu_cau_von ud re_search t d))).
Proof.
  unfold rule_so_tien_vay, rule_von_doi_ung, rule_tong_nhu_cau_von.
  destruct d. text_rule.
Qed.

Lemma term_rule_trimmed (t : pystr) (d d' : LoanApplication) :
  rule_thoi_gian_vay_thang ud re_search t d = Ok d' ->
  text_fields_trimmed d -> text_fields_trimmed d'.
Proof.
  unfold rule_thoi_gian_vay_thang. destruct (re_search _ _ t) as [m|].
  - destruct (py_int ud (group1 m)); cbn [bind]; [|discriminate].
    intros [= <-]. destruct d. exact (fun H => H).
  - now intros [= <-].
Qed.

Lemma rate_rule_trimmed (t : pystr) (d d' : LoanApplication) :
  rule_lai_suat_nam ud re_search t d = Ok d' ->
  text_fields_trimmed d -> text_fields_trimmed d'.
Proof.
  unfold rule_lai_suat_nam. destruct (re_search _ _ t) as [m|].
  - destruct (percent_to_float ud (Some (group1 m))); cbn [bind];
      [|discriminate].
    intros [= <-]. destruct d. exact (fun H => H).
  - now intros [= <-].
Qed.

Lemma closing_rules_trimmed (t : pystr) (a b : Q) (d : LoanApplication) :
  text_fields_trimmed d ->
  text_fields_trimmed
    (cross_field_repair
       (rule_loi_nhuan_rong_nam ud re_search t a
          (rule_gia_tri_tsdb ud re_search t
             (rule_thu_nhap_thang ud re_search t a b d)))).
Proof.
  unfold cross_field_repair, rule_loi_nhuan_rong_nam, rule_gia_tri_tsdb,
    rule_thu_nhap_thang.
  destruct d. text_rule.
Qed.

(** X20. In every record that [extract_from_docx] returns, the name, the
    identity number, the address and the phone number neither begin nor
    end with whitespace, and the loan purpose does not begin with it. *)
Theorem extracted_text_is_trimmed (file_bytes : list Byte.byte)
    (r : LoanApplication) :
  extract_from_docx ud re_search Document file_bytes = Ok r ->
  text_fields_trimmed r.
Proof.
  assert (Hdef : text_fields_trimmed FIELD_DEFAULTS)
    by (repeat split; exact I).
  unfold extract_from_docx. destruct Document as [reader|];
    [|now intros [= <-]].
  destruct (reader file_bytes) as [paragraphs|e]; cbn [bind];
    [|discriminate].
  unfold extract_fields. cbv zeta. set (t := normalize_text paragraphs).
  destruct (rule_thoi_gian_vay_thang ud re_search t _) as [d1|] eqn:E1;
    cbn [bind]; [|discriminate].
  destruct (rule_lai_suat_nam ud re_search t d1) as [d2|] eqn:E2;
    cbn [bind]; [|discriminate].
  intros [= <-]. apply closing_rules_trimmed.
  apply (rate_rule_trimmed _ _ _ E2).
  apply (term_rule_trimmed _ _ _ E1).
  apply amount_rules_trimmed, text_rules_trimmed, Hdef.
Qed.

End TextFields.

(** ** The normalised text *)

Lemma split_char_line (sep : char) (l : pystr) : forall cur,
  ~ In sep l -> split_char sep cur l = [rev cur ++ l].
Proof.
  induction l as [|a l IH]; intros cur Hl; cbn [split_char].
  - now rewrite app_nil_r.
  - destruct (N.eqb_spec a sep) as [->|_]; [exfalso; apply Hl; now left|].
    rewrite IH by (intro H; apply Hl; now right).
    cbn [rev]. now rewrite <- app_assoc.
Qed.

Lemma split_char_next (sep : char) (l s : pystr) : forall cur,
  ~ In sep l ->
  split_char sep cur (l ++ sep :: s) = (rev cur ++ l) :: split_char sep [] s.
Proof.
  induction l as [|a l IH]; intros cur Hl; cbn [split_char app].
  - rewrite N.eqb_refl. now rewrite app_nil_r.
  - destruct (N.eqb_spec a sep) as [->|_]; [exfalso; apply Hl; now left|].
    rewrite IH by (intro H; apply Hl; now right).
    cbn [rev]. now rewrite <- app_assoc.
Qed.

Lemma split_char_no_sep (sep : char) (s : pystr) : forall cur,
  ~ In sep cur -> Forall (fun l => ~ In sep l) (split_char sep cur s).
Proof.
  induction s as [|a s IH]; intros cur Hcur; cbn [split_char].
  - constructor; [|constructor]. now rewrite <- in_rev.
  - destruct (N.eqb_spec a sep) as [->|Hne].
    + constructor; [now rewrite <- in_rev|]. apply IH. intros [].
    + apply IH. intros [E|H]; [now apply Hne|now apply Hcur].
Qed.

(** Splitting undoes joining when no line holds the separator. *)
Lemma split_join (sep : char) (lines : list pystr) :
  lines <> [] -> Forall (fun l => ~ In sep l) lines ->
  split sep (join [sep] lines) = lines.
Proof.
  unfold split. induction lines as [|p rest IH]; [congruence|].
  intros _ H. inversion H as [|? ? Hp Hrest]; subst.
  destruct rest as [|q rest].
  - cbn [join]. now rewrite split_char_line.
  - change (join [sep] (p :: q :: rest))
      with (p ++ sep :: join [sep] (q :: rest)).
    rewrite split_char_next by exact Hp.
    cbn [rev app]. f_equal. apply IH; [discriminate|exact Hrest].
Qed.

Lemma lstrip_subset (c : char) (s : pystr) : In c (lstrip s) -> In c s.
Proof.
  induction s as [|a s IH]; cbn [lstrip]; [auto|].
  destruct (is_space a); [intro H; right; auto|auto].
Qed.

Lemma strip_subset (c : char) (s : pystr) : In c (strip s) -> In c s.
Proof.
  unfold strip. intro H. apply in_rev in H.
  apply lstrip_subset in H. apply in_rev in H.
  now apply lstrip_subset.
Qed.

(** The lines kept by the normalisation: not empty, trimmed, without a
    newline. *)
Lemma kept_lines (s : pystr) :
  Forall (fun l => nonempty l = true /\ trimmed l /\ ~ In chr_newline l)
    (map strip
       (filter (fun line => nonempty (strip line)) (split chr_newline s))).
Proof.
  pose proof (split_char_no_sep chr_newline s [] (fun H => H)) as Hsplit.
  fold (split chr_newline s) in Hsplit.
  induction Hsplit as [|l ls Hl _ IH]; cbn [filter map]; [constructor|].
  destruct (nonempty (strip l)) eqn:E; [|exact IH].
  cbn [map]. constructor; [|exact IH].
  split; [exact E|]. split; [apply strip_trimmed|].
  intro H. apply Hl. now apply strip_subset.
Qed.

Lemma kept_lines_fixed (lines : list pystr) :
  Forall (fun l => nonempty l = true /\ trimmed l /\ ~ In chr_newline l)
    lines ->
  map strip (filter (fun line => nonempty (strip line)) lines) = lines.
Proof.
  induction 1 as [|l ls (Hl & Ht & _) _ IH]; [reflexivity|].
  cbn [filter]. rewrite (strip_of_trimmed l Ht), Hl. cbn [map].
  now rewrite (strip_of_trimmed l Ht), IH.
Qed.

(** X21. The text the rules search is empty, or each of its lines is
    non-empty and neither begins nor ends with whitespace. *)
Theorem normalize_text_lines (paragraphs : list pystr) :
  normalize_text paragraphs = [] \/
  Forall (fun l => nonempty l = true /\ trimmed l)
    (split chr_newline (normalize_text paragraphs)).
Proof.
  unfold normalize_text. cbv zeta.
  pose proof (kept_lines (join [chr_newline] paragraphs)) as H.
  destruct (map strip _) as [|l ls] eqn:E; [now left|right].
  rewrite split_join; [|discriminate|].
  - eapply Forall_impl; [|exact H]. cbv beta. tauto.
  - eapply Forall_impl; [|exact H]. cbv beta. tauto.
Qed.

(** X22. Normalising is idempotent: the normalised text, taken as one
    paragraph, normalises to itself. *)
Theorem normalize_text_idempotent (paragraphs : list pystr) :
  normalize_text [normalize_text paragraphs] = normalize_text paragraphs.
Proof.
  unfold normalize_text at 1. cbv zeta. cbn [join].
  unfold normalize_text. cbv zeta.
  pose proof (kept_lines (join [chr_newline] paragraphs)) as H.
  destruct (map strip _) as [|l ls] eqn:E; [reflexivity|].
  rewrite split_join; [|discriminate|].
  - now rewrite kept_lines_fixed.
  - eapply Forall_impl; [|exact H]. cbv beta. tauto.
Qed.

(** ** The styled schedule *)



Section StyledSchedule.

Variable ud : char -> option N.
Variables (r pmt : Q) (start_date : Z).


End StyledSchedule.





(** ** The chart *)

Lemma dropna_from (rows : list (string * pyfloat * Q)) (row : chart_row) :
  In row (dropna rows) ->
  In (Chi_tieu row, Num (Gia_tri row), Nguong_tham_chieu row) rows.
Proof.
  induction rows as [|[[name v] ref] rows IH]; cbn [dropna]; [intros []|].
  destruct v as [q|].
  - intros [<-|H]; [now left|right; auto].
  - intro H. right. auto.
Qed.

(** The names and thresholds of the rows that can be drawn. *)
Lemma drawn_rows (metrics : MetricsResult) (row : chart_row) :
  In row (dropna (metric_table metrics)) ->
  In (Chi_tieu row, Nguong_tham_chieu row)
    [ ("DSR"%string, 8 # 10); ("LTV"%string, 8 # 10);
      ("E/C"%string, 2 # 10); ("Coverage"%string, 12 # 10);
      ("CFR"%string, 0) ].
Proof.
  intro H. apply dropna_from in H. unfold metric_table in H.
  cbn [In] in H |- *.
  repeat (destruct H as [H|H];
          [injection H as <- _ <-; auto 6|]).
  destruct H.
Qed.

Lemma get_color_not_gray (metrics : MetricsResult) (row : chart_row) :
  In row (dropna (metric_table metrics)) -> get_color row <> gray.
Proof.
  intro H. apply drawn_rows in H. unfold get_color. cbv zeta.
  cbn [In] in H.
  repeat (destruct H as [H|H];
          [injection H as <- <-;
           cbn [member existsb String.eqb Ascii.eqb Bool.eqb orb andb];
           match goal with
           | |- context [Qle_bool ?a ?b] => destruct (Qle_bool a b)
           end; discriminate|]).
  destruct H.
Qed.

Lemma reference_of_amber (metrics : MetricsResult) (row : chart_row)
    (i : nat) (l : reference_line) :
  In row (dropna (metric_table metrics)) ->
  reference_of i row = Some l -> line_colour l = amber.
Proof.
  intro H. apply drawn_rows in H. unfold reference_of. cbv zeta.
  cbn [In] in H.
  repeat (destruct H as [H|H];
          [injection H as <- <-;
           cbn [member existsb String.eqb Ascii.eqb Bool.eqb orb andb];
           try discriminate; now intros [= <-]|]).
  destruct H.
Qed.

Lemma reference_lines_from (rows : list chart_row) : forall i l,
  In l (reference_lines i rows) ->
  exists j row, In row rows /\ reference_of j row = Some l.
Proof.
  induction rows as [|row rows IH]; intros i l; cbn [reference_lines];
    [intros []|].
  destruct (reference_of i row) as [l0|] eqn:E.
  - intros [<-|H].
    + exists i, row. split; [now left|exact E].
    + destruct (IH _ _ H) as (j & row' & Hin & Hj).
      exists j, row'. split; [now right|exact Hj].
  - intro H. destruct (IH _ _ H) as (j & row' & Hin & Hj).
    exists j, row'. split; [now right|exact Hj].
Qed.

(** X25. Whatever the metrics, no bar of the chart is gray and every
    reference line is amber: the gray branch of [get_color] and the blue
    branch of the line colour are never taken. *)
Theorem chart_never_gray_nor_blue (plotly : bool) (metrics : MetricsResult)
    (bars : list chart_bar) (lines : list reference_line) :
  create_metrics_chart plotly metrics = Chart bars lines ->
  Forall (fun b => Mau b <> gray) bars /\
  Forall (fun l => line_colour l = amber) lines.
Proof.
  unfold create_metrics_chart. destruct (negb plotly); [discriminate|].
  cbv zeta.
  destruct (dropna (metric_table metrics)) as [|row rows] eqn:E;
    [discriminate|].
  assert (Hall : forall row0, In row0 (row :: rows) ->
                 In row0 (dropna (metric_table metrics)))
    by now rewrite E.
  intros [= <- <-]. split.
  - apply Forall_forall. intros b Hb.
    change (In b (map (fun row => mk_bar row (get_color row)
                                   (Gia_tri row * 100)) (row :: rows))) in Hb.
    apply in_map_iff in Hb.
    destruct Hb as (row0 & <- & Hin). cbn [Mau].
    apply (get_color_not_gray metrics), Hall, Hin.
  - apply Forall_forall. intros l Hl.
    change (In l (reference_lines 0 (row :: rows))) in Hl.
    apply reference_lines_from in Hl.
    destruct Hl as (j & row0 & Hin & Hj).
    apply (reference_of_amber metrics row0 j); [apply Hall, Hin|exact Hj].
Qed.

Lemma dropna_app (a b : list (string * pyfloat * Q)) :
  dropna (a ++ b) = dropna a ++ dropna b.
Proof.
  induction a as [|[[name v] ref] a IH]; [reflexivity|].
  cbn [app dropna]. destruct v; [cbn [app]; f_equal|]; exact IH.
Qed.

Lemma dropna_length (rows : list (string * pyfloat * Q)) :
  (List.length (dropna rows) <= List.length rows)%nat.
Proof.
  induction rows as [|[[name v] ref] rows IH]; [reflexivity|].
  cbn [dropna]. destruct v; cbn [List.length]; lia.
Qed.

(** X26. For the metrics that [compute_metrics] returns the chart is
    always drawn when Plotly is there, and the message that data is missing
    is never shown: the first row of the charted data is DSR, the last is
    CFR, with at most three rows between.  The DSR bar is green exactly
    when the payment is at most 80% of the floored income, the CFR bar
    exactly when the payment is at most the floored income. *)
Theorem chart_of_computed_metrics (d : LoanApplication) (pmt : Q) :
  payment_of d = Ok pmt ->
  exists metrics middle dsr cfr lines,
    compute_metrics d = Ok metrics /\
    create_metrics_chart true metrics
    = Chart (dsr :: middle ++ [cfr]) lines /\
    Chi_tieu (bar_row dsr) = "DSR"%string /\
    Chi_tieu (bar_row cfr) = "CFR"%string /\
    (List.length middle <= 3)%nat /\
    (Mau dsr = green
     <-> pmt <= (8 # 10) * py_max eps (thu_nhap_thang d)) /\
    (Mau cfr = green <-> pmt <= py_max eps (thu_nhap_thang d)).
Proof.
  intro Hpmt. pose proof (compute_metrics_returns d pmt Hpmt) as H.
  cbv zeta in H. pose proof (py_max_eps_pos (thu_nhap_thang d)) as Hinc.
  set (inc := py_max eps (thu_nhap_thang d)) in *.
  assert (Hdsr : Qle_bool (pmt / inc) (8 # 10) = true
                 <-> pmt <= (8 # 10) * inc).
  { rewrite Qle_bool_iff. split; intro Hle.
    - apply (Qmult_le_compat_r _ _ inc) in Hle; [|lra].
      setoid_replace (pmt / inc * inc) with pmt in Hle by (field; lra).
      exact Hle.
    - apply Qle_shift_div_r; [exact Hinc|exact Hle]. }
  assert (Hcfr : Qle_bool 0 ((inc - pmt) / inc) = true <-> pmt <= inc).
  { rewrite Qle_bool_iff. split; intro Hle.
    - apply (Qmult_le_compat_r _ _ inc) in Hle; [|lra].
      setoid_replace ((inc - pmt) / inc * inc) with (inc - pmt) in Hle
        by (field; lra).
      lra.
    - apply Qle_shift_div_l; [exact Hinc|lra]. }
  assert (Hgreen : forall b : bool,
            (if b then green else red) = green <-> b = true)
    by (intros []; split; congruence).
  set (bar_of := fun row => mk_bar row (get_color row) (Gia_tri row * 100)).
  match type of H with _ = Ok ?m => set (metrics := m) in * end.
  set (mid := [ ("LTV"%string, LTV metrics, 8 # 10);
                ("E/C"%string, E_over_C metrics, 2 # 10);
                ("Coverage"%string, Coverage metrics, 12 # 10) ]).
  set (first_row := mk_chart_row "DSR" (pmt / inc) (8 # 10)).
  set (last_row := mk_chart_row "CFR" ((inc - pmt) / inc) 0).
  assert (Hrows : dropna (metric_table metrics)
                  = first_row :: dropna mid ++ [last_row]).
  { change (metric_table metrics)
      with (("DSR"%string, Num (pmt / inc), 8 # 10)
            :: mid ++ [("CFR"%string, Num ((inc - pmt) / inc), 0)]).
    cbn [dropna]. now rewrite dropna_app. }
  exists metrics, (map bar_of (dropna mid)), (bar_of first_row),
    (bar_of last_row),
    (reference_lines 0 (first_row :: dropna mid ++ [last_row])).
  split; [exact H|]. split.
  { unfold create_metrics_chart. cbn [negb]. cbv zeta. rewrite Hrows.
    fold bar_of. cbn [map]. now rewrite map_app. }
  split; [reflexivity|]. split; [reflexivity|].
  split; [rewrite length_map; apply (dropna_length mid)|].
  unfold bar_of, first_row, last_row, get_color.
  cbn [Mau Chi_tieu Gia_tri Nguong_tham_chieu].
  cbn [member existsb String.eqb Ascii.eqb Bool.eqb orb andb].
  rewrite !Hgreen. split; assumption.
Qed.

(** ** Instances of the further properties *)

Lemma format_vnd_round_trip_witness :
  vnd_to_float arabic_indic_decimal (Some (format_vnd 1234567))
  == py_round 1234567 0 /\
  vn_money_input arabic_indic_decimal (fun _ shown => shown)
    (u "Số tiền vay") 1234567
  == py_round 1234567 0.
Proof.
  destruct (format_vnd_round_trip arabic_indic_decimal 1234567) as [H1 H2].
  split; [exact H1|]. apply H2. reflexivity.
Defined.

Lemma percent_box_round_trip_witness :
  exists q,
    vn_percent_input arabic_indic_decimal (fun _ shown => shown)
      (u "Lãi suất") (- (17 # 2)) = Ok q /\
    q == Qabs (py_round (- (17 # 2)) 2).
Proof.
  pose proof (percent_box_round_trip arabic_indic_decimal (- (17 # 2))) as H.
  cbv zeta in H. destruct H as [_ H]. apply H. reflexivity.
Defined.

Lemma percent_to_float_skips_prefix_witness :
  percent_to_float arabic_indic_decimal (Some (u "Lãi suất: -" ++ u "8,5%"))
  = percent_to_float arabic_indic_decimal (Some (u "8,5%")).
Proof.
  apply (percent_to_float_skips_prefix arabic_indic_decimal).
  reflexivity.
Defined.

Lemma vnd_to_float_ignores_other_characters_witness :
  vnd_to_float arabic_indic_decimal
    (Some (filter (vnd_relevant arabic_indic_decimal)
             (u "1.234.567,5 vnđ")))
  = vnd_to_float arabic_indic_decimal (Some (u "1.234.567,5 vnđ")).
Proof.
  apply (vnd_to_float_ignores_other_characters arabic_indic_decimal).
  split; reflexivity.
Defined.

Lemma vnd_to_float_whole_without_comma_witness :
  exists z, vnd_to_float arabic_indic_decimal (Some (u "1.5")) == inject_Z z.
Proof.
  apply (vnd_to_float_whole_without_comma arabic_indic_decimal).
  reflexivity.
Defined.

Lemma extracted_record_is_repaired_witness :
  exists r,
    extract_from_docx arabic_indic_decimal sample_search
      (Some (reader_of
               [u "Vốn đối ứng: 30.000.000 đồng";
                u "Vốn vay Agribank số tiền: 70.000.000 đồng"])) empty_zip
    = Ok r /\ repaired r.
Proof.
  eexists. split; [vm_compute; reflexivity|].
  apply (extracted_record_is_repaired arabic_indic_decimal sample_search
           (Some (reader_of
                    [u "Vốn đối ứng: 30.000.000 đồng";
                     u "Vốn vay Agribank số tiền: 70.000.000 đồng"]))
           empty_zip).
  vm_compute. reflexivity.
Defined.

Lemma repaired_need_is_consistent_witness :
  exists res,
    compute_metrics
      (cross_field_repair (set_tong_nhu_cau_von 0 sample_application))
    = Ok res /\
    Phuong_an_hop_ly res = true.
Proof.
  destruct (repaired_need_is_consistent
              (set_tong_nhu_cau_von 0 sample_application) _
              ltac:(reflexivity) ltac:(reflexivity) sample_payment)
    as (res & H & _ & Hflag).
  exists res. split; [exact H|exact Hflag].
Defined.

Lemma compute_metrics_raises_with_payment_witness :
  compute_metrics degenerate_application = Raise ZeroDivisionError.
Proof.
  apply (compute_metrics_raises_with_payment degenerate_application).
  reflexivity.
Defined.


Lemma ltv_times_coverage_witness :
  exists res ltv coverage,
    compute_metrics sample_application = Ok res /\
    LTV res = Num ltv /\ Coverage res = Num coverage /\
    ltv * coverage == 1.
Proof.
  apply (ltv_times_coverage sample_application _ sample_payment).
  - discriminate.
  - reflexivity.
Defined.

Lemma income_ratios_above_floor_witness :
  exists res dsr,
    compute_metrics sample_application = Ok res /\ DSR res = Num dsr /\
    dsr == PMT_thang res / 15000000.
Proof.
  destruct (income_ratios_above_floor sample_application _ sample_payment)
    as (res & dsr & cfr & H & Hd & _ & E & _); [discriminate|].
  exists res, dsr. split; [exact H|]. split; [exact Hd|].
  rewrite E. injection (eq_trans (eq_sym H)
    (compute_metrics_returns sample_application _ sample_payment)) as ->.
  reflexivity.
Defined.






Lemma extracted_text_is_trimmed_witness :
  exists r,
    extract_from_docx arabic_indic_decimal name_search
      (Some (reader_of [u "  Họ và tên: Nguyễn Văn A  "; u " "])) empty_zip
    = Ok r /\
    ten_khach_hang r = u "Nguyễn Văn A" /\ text_fields_trimmed r.
Proof.
  eexists. split; [vm_compute; reflexivity|]. split; [reflexivity|].
  apply (extracted_text_is_trimmed arabic_indic_decimal name_search
           (Some (reader_of [u "  Họ và tên: Nguyễn Văn A  "; u " "]))
           empty_zip).
  vm_compute. reflexivity.
Defined.



Lemma chart_never_gray_nor_blue_witness :
  exists bars lines,
    create_metrics_chart true partial_metrics = Chart bars lines /\
    Forall (fun b => Mau b <> gray) bars /\
    Forall (fun l => line_colour l = amber) lines.
Proof.
  eexists _, _. split; [reflexivity|].
  apply (chart_never_gray_nor_blue true partial_metrics). reflexivity.
Defined.

Lemma chart_of_computed_metrics_witness :
  exists metrics middle dsr cfr lines,
    compute_metrics sample_application = Ok metrics /\
    create_metrics_chart true metrics
    = Chart (dsr :: middle ++ [cfr]) lines /\
    Mau dsr = green /\ Mau cfr = green.
Proof.
  destruct (chart_of_computed_metrics sample_application _ sample_payment)
    as (metrics & middle & dsr & cfr & lines & H & Hc & _ & _ & _ & Hd & Hf).
  exists metrics, middle, dsr, cfr, lines.
  split; [exact H|]. split; [exact Hc|].
  split; [apply Hd|apply Hf]; vm_compute; discriminate.
Defined.
